(** * Inmar data-quality pipeline: a shallow embedding of
    [Challenge_Python_Inmar.py] and the properties of its file admission
    gate, row validation engine and processed-file ledger.

    Conventions of the embedding.
    - A Python [str] is a [string]; every [ascii] stands for ONE code point
      in the range U+0000..U+00FF (not for a UTF-8 byte).  The character
      classes of [str.isdigit], and of [\w] and [\s] in [re], are the ones
      CPython's Unicode database gives for these code points.
    - A table cell is null ([None]/[NaN]), a [str], an [int] or a [bool];
      floating point cells are outside the model.
    - [pd.read_csv] and [glob.glob] are library calls: the world records
      what they return.  The ledger file is kept as the list of its records;
      its CSV round trip is the identity on the names [main] stores (they
      all end in ".csv", so pandas reads them back as the same strings). *)

From Stdlib Require Import ZArith Ascii String List Bool Lia.
From stdpp Require Import base decidable option list strings pretty gmap fin_maps.

Local Open Scope string_scope.
Local Open Scope list_scope.

(** ** Python built-ins on [str] *)

Module Py.

(** Code point of a character. *)
Definition ord (c : ascii) : nat := nat_of_ascii c.

Definition in_range (lo hi : nat) (c : ascii) : bool :=
  (lo <=? ord c)%nat && (ord c <=? hi)%nat.

(** [c.isdecimal()]: the decimal digits 0-9 (the only ones below U+0100). *)
Definition char_isdecimal (c : ascii) : bool := in_range 48 57 c.

(** [c.isdigit()]: the decimal digits and the characters of
    Numeric_Type=Digit, which below U+0100 are the superscripts
    U+00B2, U+00B3 and U+00B9. *)
Definition char_isdigit (c : ascii) : bool :=
  char_isdecimal c
  || (ord c =? 178)%nat || (ord c =? 179)%nat || (ord c =? 185)%nat.

(** [c.isalnum()] for code points below U+0100. *)
Definition char_isalnum (c : ascii) : bool :=
  in_range 48 57 c || in_range 65 90 c || in_range 97 122 c
  || (ord c =? 170)%nat || (ord c =? 178)%nat || (ord c =? 179)%nat
  || (ord c =? 181)%nat || (ord c =? 185)%nat || (ord c =? 186)%nat
  || in_range 188 190 c || in_range 192 214 c || in_range 216 246 c
  || in_range 248 255 c.

(** [c.isspace()] for code points below U+0100. *)
Definition char_isspace (c : ascii) : bool :=
  in_range 9 13 c || in_range 28 32 c
  || (ord c =? 133)%nat || (ord c =? 160)%nat.

Fixpoint str_all (p : ascii -> bool) (s : string) : bool :=
  match s with
  | EmptyString => true
  | String c r => p c && str_all p r
  end.

Fixpoint str_filter (p : ascii -> bool) (s : string) : string :=
  match s with
  | EmptyString => EmptyString
  | String c r => if p c then String c (str_filter p r) else str_filter p r
  end.

(** [s.isdigit()]: false on the empty string. *)
Definition isdigit (s : string) : bool :=
  match s with
  | EmptyString => false
  | _ => str_all char_isdigit s
  end.

(** [s.isdecimal()], for comparison with [isdigit]. *)
Definition isdecimal (s : string) : bool :=
  match s with
  | EmptyString => false
  | _ => str_all char_isdecimal s
  end.

(** [s.replace(old, '')] for a one-character [old]: every occurrence
    goes. *)
Definition replace_with_empty (old : ascii) (s : string) : string :=
  str_filter (fun c => negb (Ascii.eqb c old)) s.

Definition len (s : string) : nat := String.length s.

(** [s.endswith(suffix)]. *)
Definition endswith (s suffix : string) : bool :=
  (len suffix <=? len s)%nat
  && String.eqb (String.substring (len s - len suffix) (len suffix) s) suffix.

(** [x in s] for strings: [x] occurs in [s] as a substring. *)
Fixpoint contains (x s : string) : bool :=
  String.prefix x s
  || match s with
     | EmptyString => false
     | String _ r => contains x r
     end.

Fixpoint repeat_char (c : ascii) (n : nat) : string :=
  match n with
  | O => EmptyString
  | S k => String c (repeat_char c k)
  end.

End Py.

(** ** [re.sub] with a one-character class, as the source uses it *)

Module Re.

(** Items of a bracket expression. *)
Inductive item :=
| Word            (* \w : alphanumeric or underscore *)
| Space           (* \s : whitespace *)
| Lit (c : ascii).

Definition item_matches (i : item) (c : ascii) : bool :=
  match i with
  | Word => Py.char_isalnum c || Ascii.eqb c "_"%char
  | Space => Py.char_isspace c
  | Lit d => Ascii.eqb c d
  end.

(** [[^...]]: the character is matched by none of the items. *)
Definition neg_class (items : list item) (c : ascii) : bool :=
  negb (existsb (fun i => item_matches i c) items).

(** [re.sub(cls, '', s)] where [cls] matches one character: every match
    is deleted, everything else is kept in order. *)
Definition sub_empty (cls : ascii -> bool) (s : string) : string :=
  Py.str_filter (fun c => negb (cls c)) s.

End Re.

(** ** Cells *)

Inductive Cell :=
| Null
| Str (s : string)
| Int (z : Z)
| Bool (b : bool).

Definition pd_isna (c : Cell) : bool :=
  match c with Null => true | _ => false end.

(** [str(v)]. *)
Definition py_str (c : Cell) : string :=
  match c with
  | Null => "None"
  | Str s => s
  | Int z => pretty z
  | Bool true => "True"
  | Bool false => "False"
  end.

Definition cell_eqb (a b : Cell) : bool :=
  match a, b with
  | Null, Null => true
  | Str s, Str t => String.eqb s t
  | Int x, Int y => Z.eqb x y
  | Bool x, Bool y => Bool.eqb x y
  | _, _ => false
  end.

(** ** The two cell-level rules of [data_quality_check_module] *)

Definition clean_and_validate_phone (phone : Cell) : Cell :=
  if pd_isna phone then Null
  else
    let phone :=
      Py.replace_with_empty " "%char
        (Py.replace_with_empty "+"%char (py_str phone)) in
    if (Py.len phone =? 10)%nat && Py.isdigit phone then Str phone
    else Str "invalid".

(** The pattern [r'[^\w\s,]']. *)
Definition descriptive_pattern : ascii -> bool :=
  Re.neg_class [Re.Word; Re.Space; Re.Lit ","%char].

Definition clean_descriptive_field (text : Cell) : Cell :=
  if pd_isna text then Null
  else Str (Re.sub_empty descriptive_pattern (py_str text)).

(** ** Exceptions *)

Inductive exn :=
| KeyError (key : string)
| OSError (path : string)
| CsvError (msg : string).       (* what [pd.read_csv] raises on bad input *)

Inductive Result (A : Type) :=
| Ok (a : A)
| Raise (e : exn).
Arguments Ok {A} a.
Arguments Raise {A} e.

#[global] Instance Result_ret : MRet Result := fun A a => Ok a.
#[global] Instance Result_bind : MBind Result := fun A B f m =>
  match m with
  | Ok a => f a
  | Raise e => Raise e
  end.

(** A [for] loop that threads a value and stops at the first exception. *)
Fixpoint for_each {A S : Type} (body : S -> A -> Result S) (l : list A) (s : S)
  : Result S :=
  match l with
  | [] => Ok s
  | x :: r => s' ← body s x; for_each body r s'
  end.

(** ** Data frames *)

Abbreviation Row := (gmap string Cell).

Record DataFrame := {
  columns : list string;
  rows : list Row
}.

Module Pd.

Definition has_column (df : DataFrame) (c : string) : bool :=
  existsb (String.eqb c) (columns df).

(** The value of a row in a column; a missing entry reads as null. *)
Definition cell (r : Row) (c : string) : Cell := default Null (r !! c).

(** A new column goes last, an existing one keeps its place. *)
Definition add_column (cols : list string) (c : string) : list string :=
  if existsb (String.eqb c) cols then cols else cols ++ [c].

(** [df[c]] *)
Definition getitem (df : DataFrame) (c : string) : Result (list Cell) :=
  if has_column df c then Ok (map (fun r => cell r c) (rows df))
  else Raise (KeyError c).

(** [df[c] = v] for a scalar [v]. *)
Definition setitem_scalar (df : DataFrame) (c : string) (v : Cell) : DataFrame :=
  {| columns := add_column (columns df) c;
     rows := map (fun r => <[c := v]> r) (rows df) |}.

(** [df[c] = series]; the series is always computed from [df] itself, so
    it has one value per row. *)
Definition setitem (df : DataFrame) (c : string) (series : list Cell) : DataFrame :=
  {| columns := add_column (columns df) c;
     rows := zip_with (fun r v => <[c := v]> r) (rows df) series |}.

(** [series == v] *)
Definition series_eq (series : list Cell) (v : Cell) : list bool :=
  map (fun x => cell_eqb x v) series.

(** [series.isnull()] *)
Definition isnull (series : list Cell) : list bool := map pd_isna series.

(** [df.loc[mask, c] = v] *)
Definition loc_set (df : DataFrame) (mask : list bool) (c : string) (v : Cell)
  : DataFrame :=
  {| columns := add_column (columns df) c;
     rows := zip_with (fun r (m : bool) => if m then <[c := v]> r else r)
               (rows df) mask |}.

(** [cell + tag] on a column of strings.  The source applies it to
    [issue_type] only, which line 67 fills with [''], so the operand is
    always a [str]; a null stays null as in pandas. *)
Definition cell_add (a : Cell) (tag : string) : Cell :=
  match a with
  | Str s => Str (s +:+ tag)
  | other => other
  end.

(** [df.loc[mask, c] += tag]: reads the column (KeyError when absent),
    then writes it back where the mask holds. *)
Definition iadd_where (df : DataFrame) (mask : list bool) (c : string) (tag : string)
  : DataFrame :=
  {| columns := columns df;
     rows := zip_with
               (fun r (m : bool) =>
                  if m then <[c := cell_add (cell r c) tag]> r else r)
               (rows df) mask |}.

Definition loc_iadd (df : DataFrame) (mask : list bool) (c : string) (tag : string)
  : Result DataFrame :=
  if has_column df c then Ok (iadd_where df mask c tag)
  else Raise (KeyError c).

(** [df.drop(columns=[c])] *)
Definition without_column (df : DataFrame) (c : string) : DataFrame :=
  {| columns := filter (fun d => d ≠ c) (columns df);
     rows := map (fun r => delete c r) (rows df) |}.

Definition drop (df : DataFrame) (c : string) : Result DataFrame :=
  if has_column df c then Ok (without_column df c)
  else Raise (KeyError c).

(** [df[mask]]: the rows where the mask holds. *)
Fixpoint select_rows (rs : list Row) (mask : list bool) : list Row :=
  match rs, mask with
  | r :: rs', m :: mask' =>
      if m then r :: select_rows rs' mask' else select_rows rs' mask'
  | _, _ => []
  end.

Definition select (df : DataFrame) (mask : list bool) : DataFrame :=
  {| columns := columns df; rows := select_rows (rows df) mask |}.

End Pd.

(** ** Module 2: [data_quality_check_module] *)

Definition required_fields : list string := ["name"; "phone"; "location"].

Definition null_check (df : DataFrame) (field : string) : Result DataFrame :=
  col ← Pd.getitem df field;
  let null_mask := Pd.isnull col in
  let df := Pd.loc_set df null_mask "is_bad" (Bool true) in
  Pd.loc_iadd df null_mask "issue_type" ("null_" +:+ field +:+ ";").

Definition data_quality_check_module (df : DataFrame) : Result DataFrame :=
  let df := Pd.setitem_scalar df "is_bad" (Bool false) in
  let df := Pd.setitem_scalar df "issue_type" (Str "") in
  phone ← Pd.getitem df "phone";
  let df := Pd.setitem df "phone_cleaned" (map clean_and_validate_phone phone) in
  phone_cleaned ← Pd.getitem df "phone_cleaned";
  let phone_issue_mask := Pd.series_eq phone_cleaned (Str "invalid") in
  let df := Pd.loc_set df phone_issue_mask "is_bad" (Bool true) in
  df ← Pd.loc_iadd df phone_issue_mask "issue_type" "invalid_phone;";
  phone_cleaned ← Pd.getitem df "phone_cleaned";
  let df := Pd.setitem df "phone" phone_cleaned in
  df ← Pd.drop df "phone_cleaned";
  df ← for_each null_check required_fields df;
  address ← Pd.getitem df "address";
  let df := Pd.setitem df "address" (map clean_descriptive_field address) in
  reviews_list ← Pd.getitem df "reviews_list";
  let df := Pd.setitem df "reviews_list" (map clean_descriptive_field reviews_list) in
  Ok df.

(** ** The engine, row by row *)

(** What one flagging step ([is_bad] set, tag appended) does to a row. *)
Definition flag (cond : bool) (tag : string) (r : Row) : Row :=
  if cond then
    let r := <["is_bad" := Bool true]> r in
    <["issue_type" := Pd.cell_add (Pd.cell r "issue_type") tag]> r
  else r.

Definition null_check_row (field : string) (r : Row) : Row :=
  flag (pd_isna (Pd.cell r field)) ("null_" +:+ field +:+ ";") r.

Definition init_row (r : Row) : Row :=
  <["issue_type" := Str ""]> (<["is_bad" := Bool false]> r).

Definition phone_rule_row (r : Row) : Row :=
  let r := <["phone_cleaned" := clean_and_validate_phone (Pd.cell r "phone")]> r in
  let r := flag (cell_eqb (Pd.cell r "phone_cleaned") (Str "invalid"))
             "invalid_phone;" r in
  delete "phone_cleaned" (<["phone" := Pd.cell r "phone_cleaned"]> r).

Definition clean_descriptive_row (c : string) (r : Row) : Row :=
  <[c := clean_descriptive_field (Pd.cell r c)]> r.

Definition annotate_row (r : Row) : Row :=
  clean_descriptive_row "reviews_list"
    (clean_descriptive_row "address"
       (null_check_row "location"
          (null_check_row "phone"
             (null_check_row "name"
                (phone_rule_row (init_row r)))))).

Definition required_columns : list string :=
  ["phone"; "name"; "location"; "address"; "reviews_list"].



(** The phone value after the two [replace] calls. *)
Definition normalize_phone (phone : Cell) : string :=
  Py.replace_with_empty " "%char (Py.replace_with_empty "+"%char (py_str phone)).

Definition phone_is_valid (phone : Cell) : bool :=
  (Py.len (normalize_phone phone) =? 10)%nat && Py.isdigit (normalize_phone phone).

Definition tag_if (b : bool) (tag : string) : string := if b then tag else "".

(** The tags of a row in the order the engine appends them. *)
Definition issue_tags (r : Row) : string :=
  let cleaned := clean_and_validate_phone (Pd.cell r "phone") in
  tag_if (cell_eqb cleaned (Str "invalid")) "invalid_phone;"
  +:+ tag_if (pd_isna (Pd.cell r "name")) "null_name;"
  +:+ tag_if (pd_isna cleaned) "null_phone;"
  +:+ tag_if (pd_isna (Pd.cell r "location")) "null_location;".

Definition row_is_bad (r : Row) : bool :=
  let cleaned := clean_and_validate_phone (Pd.cell r "phone") in
  cell_eqb cleaned (Str "invalid")
  || pd_isna (Pd.cell r "name")
  || pd_isna cleaned
  || pd_isna (Pd.cell r "location").

(** A row carries the flag [b] and the tags [s]. *)
Definition flagged (b : bool) (s : string) (r : Row) : Prop :=
  r !! "is_bad" = Some (Bool b) /\ r !! "issue_type" = Some (Str s).


(** The descriptive-field cleaning as the comment on line 98 of the source
    and the spec word it: only alphanumerics, spaces and commas stay. *)
Definition strip_as_documented (s : string) : string :=
  Py.str_filter
    (fun c => Py.char_isalnum c || Ascii.eqb c " " || Ascii.eqb c ",") s.

Definition tab : string := String "009"%char EmptyString.

(** ** The world the pipeline runs in *)

Record ProcessedFileRecord := {
  file_name : string;
  processed_date : string
}.

(** An input file: what [os.path.getsize] and [pd.read_csv] give for it. *)
Record File := {
  size : N;
  parsed : Result DataFrame
}.

(** A reading of [datetime.now()], in the two formats the source uses. *)
Record Timestamp := {
  strftime : string;    (* strftime('%Y%m%d%H%M%S') *)
  isoformat : string    (* isoformat() *)
}.

(** Writes to the file system, in the order they happen. *)
Inductive Effect :=
| Makedirs (dir : string)
| ToCsv (path : string) (table : DataFrame)
| LedgerWrite (records : list ProcessedFileRecord).

Inductive Level := INFO | WARNING.

Record World := {
  files : gmap string File;            (* the input files, by path *)
  glob_result : string -> list string; (* glob.glob, by pattern *)
  ledger : option (list ProcessedFileRecord);
                                       (* processed_files.csv; None: absent *)
  dirs : gset string;                  (* directories that exist *)
  effects : list Effect;               (* oldest first *)
  log : list (Level * string);         (* oldest first *)
  clock : nat -> Timestamp;            (* successive readings of the clock *)
  ticks : nat
}.

(** State and exceptions: an exception keeps the world as it was when
    raised. *)
Definition M (A : Type) : Type := World -> Result A * World.

#[global] Instance M_ret : MRet M := fun A a w => (Ok a, w).
#[global] Instance M_bind : MBind M := fun A B f m w =>
  match m w with
  | (Ok a, w') => f a w'
  | (Raise e, w') => (Raise e, w')
  end.

Definition lift {A} (r : Result A) : M A := fun w => (r, w).

(** [try: body except Exception as e: handler(e)] *)
Definition try_except {A} (body : M A) (handler : exn -> M A) : M A := fun w =>
  match body w with
  | (Ok a, w') => (Ok a, w')
  | (Raise e, w') => handler e w'
  end.

Fixpoint for_ {A} (l : list A) (body : A -> M unit) : M unit :=
  match l with
  | [] => mret tt
  | x :: r => body x;; for_ r body
  end.

Definition set_ledger (l : list ProcessedFileRecord) (w : World) : World :=
  {| files := files w; glob_result := glob_result w; ledger := Some l;
     dirs := dirs w; effects := effects w ++ [LedgerWrite l]; log := log w;
     clock := clock w; ticks := ticks w |}.

Definition add_effect (e : Effect) (w : World) : World :=
  {| files := files w; glob_result := glob_result w; ledger := ledger w;
     dirs := dirs w; effects := effects w ++ [e]; log := log w;
     clock := clock w; ticks := ticks w |}.

Definition add_dir (d : string) (w : World) : World :=
  {| files := files w; glob_result := glob_result w; ledger := ledger w;
     dirs := {[d]} ∪ dirs w; effects := effects w ++ [Makedirs d]; log := log w;
     clock := clock w; ticks := ticks w |}.

Definition add_log (l : Level) (msg : string) (w : World) : World :=
  {| files := files w; glob_result := glob_result w; ledger := ledger w;
     dirs := dirs w; effects := effects w; log := log w ++ [(l, msg)];
     clock := clock w; ticks := ticks w |}.

Definition tick (w : World) : World :=
  {| files := files w; glob_result := glob_result w; ledger := ledger w;
     dirs := dirs w; effects := effects w; log := log w;
     clock := clock w; ticks := S (ticks w) |}.

(** ** Library calls with effects *)

Module Os.

(** [s.rfind(c)]: the last index of [c] in [s], or -1. *)
Fixpoint rfind_from (c : ascii) (s : string) (i : nat) : option nat :=
  match s with
  | EmptyString => None
  | String a r =>
      match rfind_from c r (S i) with
      | Some j => Some j
      | None => if Ascii.eqb a c then Some i else None
      end
  end.

Definition rfind (c : ascii) (s : string) : Z :=
  match rfind_from c s 0 with
  | Some j => Z.of_nat j
  | None => (-1)%Z
  end.

(** [s[i:]] and [s[:i]] for [0 <= i]. *)
Fixpoint from_index (i : nat) (s : string) : string :=
  match i, s with
  | O, _ => s
  | S k, String _ r => from_index k r
  | S _, EmptyString => EmptyString
  end.

Definition up_to_index (i : nat) (s : string) : string := String.substring 0 i s.

(** [os.path.basename] *)
Definition basename (p : string) : string :=
  from_index (Z.to_nat (rfind "/"%char p + 1)) p.

(** [os.path.join] of two parts. *)
Definition join (a b : string) : string :=
  if String.prefix "/" b then b
  else if String.eqb a "" || Py.endswith a "/" then a +:+ b
  else a +:+ "/" +:+ b.

(** [os.path.splitext(p)[0]]: the extension starts at the last dot of the
    last component, unless only dots come before it there. *)
Definition splitext_root (p : string) : string :=
  let sepIndex := rfind "/"%char p in
  let dotIndex := rfind "."%char p in
  if (sepIndex <? dotIndex)%Z then
    let name_start := Z.to_nat (sepIndex + 1) in
    let before_dot :=
      String.substring name_start (Z.to_nat dotIndex - name_start) p in
    if Py.str_all (fun c => Ascii.eqb c "."%char) before_dot then p
    else up_to_index (Z.to_nat dotIndex) p
  else p.

Definition getsize (path : string) : M N := fun w =>
  match files w !! path with
  | Some f => (Ok (size f), w)
  | None => (Raise (OSError path), w)
  end.

(** [os.path.exists] on a directory path.  The empty path names nothing:
    [os.path.exists('')] is [False] whatever the file system holds. *)
Definition path_exists_dir (d : string) : M bool := fun w =>
  (Ok (negb (String.eqb d "") && bool_decide (d ∈ dirs w)), w).

(** [os.makedirs].  On the empty path it raises [FileNotFoundError]
    (errno 2, an [OSError]) and creates nothing; any other directory is
    taken to be creatable. *)
Definition makedirs (d : string) : M unit := fun w =>
  if String.eqb d "" then (Raise (OSError d), w) else (Ok tt, add_dir d w).

End Os.

Definition glob_glob (pattern : string) : M (list string) := fun w =>
  (Ok (glob_result w pattern), w).

Definition datetime_now : M Timestamp := fun w =>
  (Ok (clock w (ticks w)), tick w).

Definition logging_warning (msg : string) : M unit := fun w =>
  (Ok tt, add_log WARNING msg w).

Definition logging_info (msg : string) : M unit := fun w =>
  (Ok tt, add_log INFO msg w).

(** [pd.read_csv(path)] on an input file. *)
Definition pd_read_csv (path : string) : M DataFrame := fun w =>
  match files w !! path with
  | Some f => (parsed f, w)
  | None => (Raise (OSError path), w)
  end.

(** [df.to_csv(path, index=False)] *)
Definition to_csv (path : string) (df : DataFrame) : M unit := fun w =>
  (Ok tt, add_effect (ToCsv path df) w).

(** ** The processed-file ledger *)

Definition ledger_exists : M bool := fun w =>
  (Ok (bool_decide (is_Some (ledger w))), w).

(** [pd.read_csv(PROCESSED_FILES_LOG)] and [to_csv] on it.  The ledger is
    kept as the records [read_csv] gives back, and names are taken to come
    back as the strings that were written.  That is so for names ending in
    ".csv", the only ones [main] stores; a name that reads as a number or
    as a missing value (such as "123" or "NA") does not come back as
    itself, and never reaches the ledger through [main]. *)
Definition read_ledger : M (list ProcessedFileRecord) := fun w =>
  (Ok (default [] (ledger w)), w).

Definition write_ledger (l : list ProcessedFileRecord) : M unit := fun w =>
  (Ok tt, set_ledger l w).

Definition load_processed_files : M (gset string) :=
  there ← ledger_exists;
  if there : bool then
    processed_df ← read_ledger;
    mret (list_to_set (map file_name processed_df))
  else mret ∅.

Definition save_processed_files (name : string) : M unit :=
  now ← datetime_now;
  let new_record_df :=
    [ {| file_name := name; processed_date := isoformat now |} ] in
  there ← ledger_exists;
  updated_df ← (if there : bool then
                  processed_df ← read_ledger;
                  mret (processed_df ++ new_record_df)%list
                else mret new_record_df);
  write_ledger updated_df.

(** ** Module 1: [file_check_module] *)

Definition file_check_module (file_path : string) : M bool :=
  processed_files ← load_processed_files;
  let name := Os.basename file_path in
  if bool_decide (name ∈ processed_files) then
    logging_warning ("Skipping '" +:+ name +:+ "': Already processed.");;
    mret false
  else
    sz ← Os.getsize file_path;
    if (sz =? 0)%N then
      logging_warning ("Skipping '" +:+ name +:+ "': File is empty.");;
      mret false
    else if negb (Py.endswith file_path ".csv") then
      logging_warning ("Skipping '" +:+ name +:+ "': Invalid file extension.");;
      mret false
    else mret true.

(** ** Writing the output files *)

(** [~series] and boolean indexing act on the [bool] column [is_bad];
    a cell of another type does not occur there. *)
Definition cell_true (c : Cell) : bool :=
  match c with Bool b => b | _ => false end.

Definition cell_false (c : Cell) : bool :=
  match c with Bool b => negb b | _ => false end.

(** [df.empty] *)
Definition df_empty (df : DataFrame) : bool :=
  match rows df, columns df with
  | [], _ | _, [] => true
  | _, _ => false
  end.

Definition write_output_files (df : DataFrame) (output_dir file_name_base : string)
  : M unit :=
  there ← Os.path_exists_dir output_dir;
  (if there : bool then mret tt else Os.makedirs output_dir);;
  now ← datetime_now;
  let current_timestamp := strftime now in
  is_bad ← lift (Pd.getitem df "is_bad");
  kept ← lift (Pd.drop (Pd.select df (map cell_false is_bad)) "is_bad");
  clean_records ← lift (Pd.drop kept "issue_type");
  is_bad ← lift (Pd.getitem df "is_bad");
  let bad_records := Pd.select df (map cell_true is_bad) in
  let clean_file_path :=
    Os.join output_dir
      (file_name_base +:+ "_cleaned_" +:+ current_timestamp +:+ ".out") in
  to_csv clean_file_path clean_records;;
  logging_info ("Clean records written to: " +:+ clean_file_path);;
  if negb (df_empty bad_records) then
    let bad_file_path := Os.join output_dir (file_name_base +:+ ".bad") in
    to_csv bad_file_path bad_records;;
    logging_warning ("Bad records written to: " +:+ bad_file_path)
  else mret tt.

(** ** The orchestrator *)

Definition newline : string := String "010"%char EmptyString.

(** Text of a caught exception, as formatted into the log. *)
Definition exn_text (e : exn) : string :=
  match e with
  | KeyError k => "'" +:+ k +:+ "'"
  | OSError p => "[Errno 2] No such file or directory: '" +:+ p +:+ "'"
  | CsvError msg => msg
  end.

(** The body of the [for] loop of [main] for one candidate path. *)
Definition process_candidate (output_dir file_path : string) : M unit :=
  is_new ← file_check_module file_path;
  if is_new : bool then
    let name := Os.basename file_path in
    let file_base_name := Os.splitext_root name in
    logging_warning (newline +:+ "Processing '" +:+ name +:+ "'...");;
    read ← try_except
              (df ← pd_read_csv file_path; mret (Some df))
              (fun e =>
                 logging_warning ("Error reading file '" +:+ name +:+ "': "
                                  +:+ exn_text e +:+ ". Skipping.");;
                 mret None);
    match read with
    | None => mret tt                       (* continue *)
    | Some df =>
        df ← lift (data_quality_check_module df);
        write_output_files df output_dir file_base_name;;
        save_processed_files name
    end
  else mret tt.

Definition main (input_dir output_dir : string) : M unit :=
  csv_files ← glob_glob (Os.join input_dir "data_file_*.csv");
  for_ csv_files (process_candidate output_dir);;
  logging_warning (newline +:+ "Data quality pipeline execution complete.").

(** ** What happens to one candidate file *)

(** The names in the ledger. *)
Definition recorded_names (w : World) : list string :=
  map file_name (default [] (ledger w)).

(** What the loop body of [main] makes of a candidate, up to the call of
    [write_output_files]: [Processed] says that the gate admitted the
    file, the read succeeded and the engine annotated the table. *)
Inductive Outcome :=
| AlreadyProcessed
| EmptyFile
| InvalidExtension
| NoSuchFile                      (* [os.path.getsize] raises *)
| ReadFailed (e : exn)            (* [pd.read_csv] raises, caught *)
| SchemaError (e : exn)           (* the engine raises, not caught *)
| Processed (annotated : DataFrame).

Definition outcome (file_path : string) (w : World) : Outcome :=
  if bool_decide (Os.basename file_path ∈ recorded_names w) then AlreadyProcessed
  else
    match files w !! file_path with
    | None => NoSuchFile
    | Some f =>
        if (size f =? 0)%N then EmptyFile
        else if negb (Py.endswith file_path ".csv") then InvalidExtension
        else
          match parsed f with
          | Raise e => ReadFailed e
          | Ok df =>
              match data_quality_check_module df with
              | Raise e => SchemaError e
              | Ok annotated => Processed annotated
              end
          end
    end.

(** The two tables [write_output_files] writes. *)
Definition clean_records (df : DataFrame) : DataFrame :=
  let is_bad := map (fun r => Pd.cell r "is_bad") (rows df) in
  Pd.without_column
    (Pd.without_column (Pd.select df (map cell_false is_bad)) "is_bad")
    "issue_type".

Definition bad_records (df : DataFrame) : DataFrame :=
  let is_bad := map (fun r => Pd.cell r "is_bad") (rows df) in
  Pd.select df (map cell_true is_bad).

Definition clean_file_path (output_dir file_name_base stamp : string) : string :=
  Os.join output_dir (file_name_base +:+ "_cleaned_" +:+ stamp +:+ ".out").

Definition bad_file_path (output_dir file_name_base : string) : string :=
  Os.join output_dir (file_name_base +:+ ".bad").

(** The writes of [write_output_files], in order. *)
Definition output_writes (df : DataFrame) (output_dir file_name_base stamp : string)
    (dir_there : bool) : list Effect :=
  (if dir_there then [] else [Makedirs output_dir])
  ++ [ToCsv (clean_file_path output_dir file_name_base stamp) (clean_records df)]
  ++ (if df_empty (bad_records df) then []
      else [ToCsv (bad_file_path output_dir file_name_base) (bad_records df)]).

(** The writes one processed file causes: its outputs, then the ledger. *)
Definition file_writes (annotated : DataFrame) (output_dir name stamp date : string)
    (dir_there : bool) (old : list ProcessedFileRecord) : list Effect :=
  output_writes annotated output_dir (Os.splitext_root name) stamp dir_there
  ++ [LedgerWrite (old ++ [ {| file_name := name; processed_date := date |} ])].

(** The writes of one candidate among [l], with the input files of [w]:
    either none, or those of a file that was read and annotated, namely
    its outputs made from the annotated table and then its ledger record. *)
Inductive candidate_writes (output_dir : string) (w : World) (l : list string)
  : list Effect -> Prop :=
| no_writes : candidate_writes output_dir w l []
| processed_writes p f df annotated stamp date dir_there old :
    p ∈ l -> files w !! p = Some f -> parsed f = Ok df ->
    data_quality_check_module df = Ok annotated ->
    candidate_writes output_dir w l
      (file_writes annotated output_dir (Os.basename p) stamp date dir_there old).

(** Skipped with the message of an already processed file. *)
Definition skipped_as_already_processed (file_path : string) (w : World) : Prop :=
  file_check_module file_path w
  = (Ok false,
     add_log WARNING
       ("Skipping '" +:+ Os.basename file_path +:+ "': Already processed.") w).

(** The first required column a table lacks, in the order the engine
    reads them. *)
Definition first_missing (df : DataFrame) : option string :=
  List.find (fun c => negb (Pd.has_column df c)) required_columns.

(** The world after [write_output_files] has returned. *)
Definition written (df : DataFrame) (output_dir file_name_base : string) (w : World)
  : World :=
  let stamp := strftime (clock w (ticks w)) in
  let w := if bool_decide (output_dir ∈ dirs w) then w else add_dir output_dir w in
  let w := tick w in
  let w := add_effect
             (ToCsv (clean_file_path output_dir file_name_base stamp) (clean_records df))
             w in
  let w := add_log INFO
             ("Clean records written to: "
              +:+ clean_file_path output_dir file_name_base stamp) w in
  if negb (df_empty (bad_records df)) then
    add_log WARNING
      ("Bad records written to: " +:+ bad_file_path output_dir file_name_base)
      (add_effect (ToCsv (bad_file_path output_dir file_name_base) (bad_records df)) w)
  else w.

(** The world after [save_processed_files]. *)
Definition recorded (name : string) (w : World) : World :=
  set_ledger
    (default [] (ledger w)
     ++ [ {| file_name := name;
             processed_date := isoformat (clock w (ticks w)) |} ])
    (tick w).

Definition processing_msg (p : string) : string :=
  newline +:+ "Processing '" +:+ Os.basename p +:+ "'...".

(** The candidates [main] gets from [glob.glob]. *)
Definition candidates_of (input_dir : string) (w : World) : list string :=
  glob_result w (Os.join input_dir "data_file_*.csv").

(** The digits test of the phone rule, spelled out: ten characters, each a
    digit in the sense of [str.isdigit]. *)
Definition phone_digits_ok (n : string) : Prop :=
  String.length n = 10
  /\ forall c, In c (list_ascii_of_string n) -> Py.char_isdigit c = true.

(** Nothing but the log and the clock differs between two worlds. *)
Definition unchanged (t t' : World) : Prop :=
  files t' = files t /\ glob_result t' = glob_result t
  /\ ledger t' = ledger t /\ effects t' = effects t /\ dirs t' = dirs t.

(** Outcomes that neither write nor raise. *)
Definition quiet (o : Outcome) : Prop :=
  match o with
  | AlreadyProcessed | EmptyFile | InvalidExtension | ReadFailed _ => True
  | NoSuchFile | SchemaError _ | Processed _ => False
  end.


(** ** Sample data *)

Module Sample.

Definition row (name phone location address reviews_list : Cell) : Row :=
  <["name" := name]> (<["phone" := phone]> (<["location" := location]>
    (<["address" := address]> (<["reviews_list" := reviews_list]> ∅)))).

Definition valid_row : Row :=
  row (Str "Cafe Uno") (Str "555 123 4567") (Str "Downtown")
    (Str "12 Main St., Apt #4") (Str "Great food!").

Definition null_name_row : Row :=
  row Null (Str "+5551234567") (Str "Uptown") (Str "3 Oak Ave") Null.

Definition long_phone_row : Row :=
  row (Str "Bar Tres") (Str "15551234567") (Str "Midtown") Null (Str "ok").

Definition null_phone_row : Row :=
  row (Str "Deli Cuatro") Null (Str "Harbor") (Str "9 Pier Rd") (Str "fine").

Definition header : list string :=
  ["name"; "phone"; "location"; "address"; "reviews_list"].

Definition table : DataFrame :=
  {| columns := header;
     rows := [valid_row; null_name_row; long_phone_row; null_phone_row] |}.

(** What the engine makes of [table]. *)
Definition annotated : DataFrame :=
  {| columns := header ++ ["is_bad"; "issue_type"];
     rows := map annotate_row (rows table) |}.

(** A table without the [phone] column. *)
Definition no_phone_table : DataFrame :=
  {| columns := ["name"; "location"; "address"; "reviews_list"];
     rows := [delete "phone" valid_row] |}.

Definition noon : Timestamp :=
  {| strftime := "20240101120000"; isoformat := "2024-01-01T12:00:00" |}.

Definition candidates : list string :=
  ["in/data_file_1.csv"; "in/data_file_2.csv"; "in/data_file_3.csv"].

(** A good file, an empty one and one that [pd.read_csv] rejects; nothing
    processed yet. *)
Definition world : World :=
  {| files :=
       <["in/data_file_1.csv" := {| size := 412; parsed := Ok table |}]>
       (<["in/data_file_2.csv" :=
            {| size := 0;
               parsed := Raise (CsvError "No columns to parse from file") |}]>
       (<["in/data_file_3.csv" :=
            {| size := 57;
               parsed := Raise (CsvError "Error tokenizing data") |}]> ∅));
     glob_result := fun _ => candidates;
     ledger := None;
     dirs := ∅;
     effects := [];
     log := [];
     clock := fun _ => noon;
     ticks := 0 |}.

(** A file whose table lacks a required column, followed by a good one. *)
Definition schema_world : World :=
  {| files :=
       <["in/data_file_1.csv" := {| size := 80; parsed := Ok no_phone_table |}]>
       (<["in/data_file_2.csv" := {| size := 412; parsed := Ok table |}]> ∅);
     glob_result := fun _ => ["in/data_file_1.csv"; "in/data_file_2.csv"];
     ledger := None;
     dirs := ∅;
     effects := [];
     log := [];
     clock := fun _ => noon;
     ticks := 0 |}.

(** A ledger that already names a file. *)
Definition recorded_world : World :=
  {| files := files world;
     glob_result := fun _ => candidates;
     ledger := Some [ {| file_name := "data_file_1.csv";
                         processed_date := "2023-12-31T08:00:00" |} ];
     dirs := {["out"]};
     effects := [];
     log := [];
     clock := fun _ => noon;
     ticks := 0 |}.

(** Two directories that each hold a [data_file_1.csv], as a pattern with
    a wildcard directory finds them: the first cannot be read, the second
    is good. *)
Definition shared_name_world : World :=
  {| files :=
       <["data/a/data_file_1.csv" :=
           {| size := 57; parsed := Raise (CsvError "Error tokenizing data") |}]>
       (<["data/b/data_file_1.csv" := {| size := 412; parsed := Ok table |}]> ∅);
     glob_result := fun _ => ["data/a/data_file_1.csv"; "data/b/data_file_1.csv"];
     ledger := None;
     dirs := ∅;
     effects := [];
     log := [];
     clock := fun _ => noon;
     ticks := 0 |}.

End Sample.

(** ** Further notions used by the properties below *)

(** A character [clean_descriptive_field] keeps. *)
Definition descriptive_char (c : ascii) : bool :=
  Py.char_isalnum c || Ascii.eqb c "_" || Py.char_isspace c || Ascii.eqb c ",".

(** The columns of the engine's result: those of the input without
    [phone_cleaned], with [is_bad] and [issue_type] added at the end when
    new. *)
Definition engine_columns (cols : list string) : list string :=
  filter (fun d => d ≠ "phone_cleaned")
    (Pd.add_column (Pd.add_column cols "is_bad") "issue_type").

(** The columns the engine writes. *)
Definition engine_written : list string :=
  ["is_bad"; "issue_type"; "phone"; "phone_cleaned"; "address"; "reviews_list"].

(** * Properties *)

(** ** The spec's examples, evaluated *)

Example phone_roundtrip :
  clean_and_validate_phone (Str "555 123 4567") = Str "5551234567".
Proof. reflexivity. Qed.

Example phone_int :
  clean_and_validate_phone (Int 5551234567) = Str "5551234567".
Proof. vm_compute. reflexivity. Qed.

Example phone_short : clean_and_validate_phone (Str "12345") = Str "invalid".
Proof. reflexivity. Qed.

Example descriptive_hello :
  clean_descriptive_field (Str "Hello, World!! #123") = Str "Hello, World 123".
Proof. reflexivity. Qed.


(** ** The engine is a row-by-row map *)

Section FrameLemmas.

Lemma zip_with_map_same {A B C} (f : A -> B -> C) (g : A -> B) (l : list A) :
  zip_with f l (map g l) = map (fun x => f x (g x)) l.
Proof. induction l as [|x l IH]; simpl; [done | by rewrite IH]. Qed.

Lemma bind_Ok {A B} (m : Result A) (k : A -> Result B) (b : B) :
  m ≫= k = Ok b -> exists a, m = Ok a /\ k a = Ok b.
Proof. destruct m as [a|e]; simpl; [eauto | discriminate]. Qed.

Lemma getitem_Ok df c col :
  Pd.getitem df c = Ok col -> col = map (fun r => Pd.cell r c) (rows df).
Proof. unfold Pd.getitem. destruct (Pd.has_column df c); congruence. Qed.

Lemma loc_iadd_Ok df mask c tag df' :
  Pd.loc_iadd df mask c tag = Ok df' -> df' = Pd.iadd_where df mask c tag.
Proof. unfold Pd.loc_iadd. destruct (Pd.has_column df c); congruence. Qed.

Lemma drop_Ok df c df' :
  Pd.drop df c = Ok df' -> df' = Pd.without_column df c.
Proof. unfold Pd.drop. destruct (Pd.has_column df c); congruence. Qed.

Lemma zip_with_map_map {A A' B C} (f : A' -> B -> C) (h : A -> A') (g : A -> B)
    (l : list A) :
  zip_with f (map h l) (map g l) = map (fun x => f (h x) (g x)) l.
Proof. induction l as [|x l IH]; simpl; [done | by rewrite IH]. Qed.

End FrameLemmas.

Ltac fuse_rows :=
  repeat first
    [ rewrite map_map
    | rewrite zip_with_map_same
    | rewrite zip_with_map_map ].

Ltac bind_inv H :=
  let a := fresh "a" in
  let Ha := fresh "Ha" in
  apply bind_Ok in H as (a & Ha & H);
  first [ apply getitem_Ok in Ha | apply loc_iadd_Ok in Ha | apply drop_Ok in Ha ];
  subst a.

Lemma null_check_rows df field df' :
  null_check df field = Ok df' ->
  rows df' = map (null_check_row field) (rows df).
Proof.
  unfold null_check. intros H. bind_inv H. apply loc_iadd_Ok in H. subst df'.
  simpl. unfold Pd.isnull. fuse_rows.
  apply map_ext. intros r. unfold null_check_row, flag.
  by destruct (pd_isna _).
Qed.

Lemma dq_rows df df' :
  data_quality_check_module df = Ok df' ->
  rows df' = map annotate_row (rows df).
Proof.
  unfold data_quality_check_module. intros H.
  do 5 bind_inv H. simpl in H.
  apply bind_Ok in H as (d3 & Hloop & H).
  apply bind_Ok in Hloop as (d1 & H1 & Hloop). apply null_check_rows in H1.
  apply bind_Ok in Hloop as (d2 & H2 & Hloop). apply null_check_rows in H2.
  apply bind_Ok in Hloop as (d3' & H3 & Hloop). apply null_check_rows in H3.
  injection Hloop as ->.
  do 2 bind_inv H. injection H as <-. simpl.
  rewrite H3, H2, H1. simpl. unfold Pd.series_eq. fuse_rows.
  apply map_ext. intros r.
  unfold annotate_row, clean_descriptive_row, phone_rule_row, init_row, flag.
  by destruct (cell_eqb _ _).
Qed.

(** ** What [annotate_row] leaves in a row *)

Lemma append_empty_r (s : string) : s +:+ "" = s.
Proof.
  induction s as [|a s IH]; [done|].
  change (String a (s +:+ "") = String a s). by f_equal.
Qed.

Section RowLemmas.

Implicit Types (r : Row) (c d : string).

Lemma cell_insert_eq r c v : Pd.cell (<[c := v]> r) c = v.
Proof. unfold Pd.cell. by rewrite lookup_insert_eq. Qed.

Lemma cell_insert_ne r c d v :
  c ≠ d -> Pd.cell (<[c := v]> r) d = Pd.cell r d.
Proof. intros. unfold Pd.cell. by rewrite lookup_insert_ne. Qed.

Lemma cell_delete_ne r c d :
  c ≠ d -> Pd.cell (delete c r) d = Pd.cell r d.
Proof. intros. unfold Pd.cell. by rewrite lookup_delete_ne. Qed.

Lemma cell_flag b tag r c :
  c ≠ "is_bad" -> c ≠ "issue_type" -> Pd.cell (flag b tag r) c = Pd.cell r c.
Proof.
  intros. unfold flag. destruct b; [|done].
  cbv zeta. by rewrite !cell_insert_ne.
Qed.

Lemma flagged_flag b s r cond tag :
  flagged b s r -> flagged (b || cond) (s +:+ tag_if cond tag) (flag cond tag r).
Proof.
  intros [Hb Hs]. unfold flag, flagged, tag_if. destruct cond; cbv zeta.
  - rewrite orb_true_r, cell_insert_ne by discriminate.
    rewrite lookup_insert_ne by discriminate.
    rewrite !lookup_insert_eq. unfold Pd.cell. by rewrite Hs.
  - rewrite orb_false_r. by rewrite append_empty_r.
Qed.

Lemma flagged_insert b s r c v :
  c ≠ "is_bad" -> c ≠ "issue_type" -> flagged b s r -> flagged b s (<[c := v]> r).
Proof. intros ?? [??]. split; by rewrite lookup_insert_ne. Qed.

Lemma flagged_delete b s r c :
  c ≠ "is_bad" -> c ≠ "issue_type" -> flagged b s r -> flagged b s (delete c r).
Proof. intros ?? [??]. split; by rewrite lookup_delete_ne. Qed.

Lemma flagged_init r : flagged false "" (init_row r).
Proof.
  unfold init_row. split.
  - rewrite lookup_insert_ne by discriminate. by rewrite lookup_insert_eq.
  - by rewrite lookup_insert_eq.
Qed.

Lemma cell_init r c :
  c ≠ "is_bad" -> c ≠ "issue_type" -> Pd.cell (init_row r) c = Pd.cell r c.
Proof. intros. unfold init_row. by rewrite !cell_insert_ne. Qed.

Lemma flagged_phone_rule b s r :
  flagged b s r ->
  let invalid := cell_eqb (clean_and_validate_phone (Pd.cell r "phone")) (Str "invalid") in
  flagged (b || invalid) (s +:+ tag_if invalid "invalid_phone;") (phone_rule_row r).
Proof.
  intros H. unfold phone_rule_row. cbv zeta. rewrite cell_insert_eq.
  apply flagged_delete; [discriminate..|].
  apply flagged_insert; [discriminate..|].
  apply flagged_flag. by apply flagged_insert.
Qed.

Lemma cell_phone_rule_phone r :
  Pd.cell (phone_rule_row r) "phone" = clean_and_validate_phone (Pd.cell r "phone").
Proof.
  unfold phone_rule_row. cbv zeta.
  rewrite cell_delete_ne by discriminate.
  rewrite !cell_insert_eq, cell_flag by discriminate.
  by rewrite cell_insert_eq.
Qed.

Lemma cell_phone_rule_other r c :
  c ≠ "is_bad" -> c ≠ "issue_type" -> c ≠ "phone" -> c ≠ "phone_cleaned" ->
  Pd.cell (phone_rule_row r) c = Pd.cell r c.
Proof.
  intros. unfold phone_rule_row. cbv zeta.
  rewrite cell_delete_ne, cell_insert_ne, cell_flag, cell_insert_ne by done.
  done.
Qed.

Lemma flagged_null_check b s r field :
  flagged b s r ->
  flagged (b || pd_isna (Pd.cell r field))
    (s +:+ tag_if (pd_isna (Pd.cell r field)) ("null_" +:+ field +:+ ";"))
    (null_check_row field r).
Proof. apply flagged_flag. Qed.

Lemma cell_null_check r field c :
  c ≠ "is_bad" -> c ≠ "issue_type" ->
  Pd.cell (null_check_row field r) c = Pd.cell r c.
Proof. apply cell_flag. Qed.

Lemma annotate_row_flagged r : flagged (row_is_bad r) (issue_tags r) (annotate_row r).
Proof.
  unfold annotate_row, clean_descriptive_row.
  do 2 (apply flagged_insert; [discriminate..|]).
  pose proof (flagged_phone_rule _ _ _ (flagged_init r)) as H0. cbv zeta in H0.
  pose proof (flagged_null_check _ _ _ "name" H0) as H1.
  pose proof (flagged_null_check _ _ _ "phone" H1) as H2.
  pose proof (flagged_null_check _ _ _ "location" H2) as H3.
  revert H3. clear H0 H1 H2.
  rewrite !cell_null_check, cell_phone_rule_phone by discriminate.
  rewrite !cell_phone_rule_other, !cell_init by discriminate.
  unfold row_is_bad, issue_tags, tag_if. cbv zeta.
  destruct (cell_eqb _ _), (pd_isna (Pd.cell r "name")),
    (pd_isna (clean_and_validate_phone _)), (pd_isna (Pd.cell r "location"));
    exact id.
Qed.

Lemma annotate_row_phone r :
  Pd.cell (annotate_row r) "phone" = clean_and_validate_phone (Pd.cell r "phone").
Proof.
  unfold annotate_row, clean_descriptive_row.
  rewrite !cell_insert_ne by discriminate.
  rewrite !cell_null_check, cell_phone_rule_phone by discriminate.
  by rewrite cell_init.
Qed.

Lemma annotate_row_descriptive r c :
  c = "address" \/ c = "reviews_list" ->
  Pd.cell (annotate_row r) c = clean_descriptive_field (Pd.cell r c).
Proof.
  unfold annotate_row, clean_descriptive_row.
  intros [-> | ->].
  - rewrite cell_insert_ne, cell_insert_eq by discriminate.
    rewrite !cell_null_check, cell_phone_rule_other by discriminate.
    by rewrite cell_init.
  - rewrite cell_insert_eq, cell_insert_ne by discriminate.
    rewrite !cell_null_check, cell_phone_rule_other by discriminate.
    by rewrite cell_init.
Qed.

End RowLemmas.

(** ** Which columns the engine needs and leaves *)

Section Columns.

Implicit Types (df : DataFrame) (c d : string).

Lemma existsb_add_column cols c d :
  existsb (String.eqb d) (Pd.add_column cols c)
  = existsb (String.eqb d) cols || String.eqb d c.
Proof.
  unfold Pd.add_column. destruct (existsb (String.eqb c) cols) eqn:E.
  - destruct (String.eqb_spec d c) as [->|]; [by rewrite E | by rewrite orb_false_r].
  - rewrite existsb_app. simpl. by rewrite orb_false_r.
Qed.

Lemma existsb_filter_ne cols c d :
  existsb (String.eqb d) (filter (fun x => x ≠ c) cols)
  = existsb (String.eqb d) cols && negb (String.eqb d c).
Proof.
  induction cols as [|x cols IH]; [done|].
  rewrite filter_cons. case_decide as Hx; simpl; rewrite IH.
  - destruct (String.eqb_spec d x) as [->|]; simpl; [|done].
    destruct (String.eqb_spec x c); [done|]. simpl.
    by destruct (existsb _ cols).
  - subst x. destruct (String.eqb_spec d c); simpl; [|done].
    by rewrite andb_false_r.
Qed.

Lemma has_column_setitem_scalar df c v d :
  Pd.has_column (Pd.setitem_scalar df c v) d = Pd.has_column df d || String.eqb d c.
Proof. apply existsb_add_column. Qed.

Lemma has_column_setitem df c series d :
  Pd.has_column (Pd.setitem df c series) d = Pd.has_column df d || String.eqb d c.
Proof. apply existsb_add_column. Qed.

Lemma has_column_loc_set df mask c v d :
  Pd.has_column (Pd.loc_set df mask c v) d = Pd.has_column df d || String.eqb d c.
Proof. apply existsb_add_column. Qed.

Lemma has_column_iadd_where df mask c tag d :
  Pd.has_column (Pd.iadd_where df mask c tag) d = Pd.has_column df d.
Proof. done. Qed.

Lemma has_column_without df c d :
  Pd.has_column (Pd.without_column df c) d
  = Pd.has_column df d && negb (String.eqb d c).
Proof. apply existsb_filter_ne. Qed.

Lemma has_column_select df mask d :
  Pd.has_column (Pd.select df mask) d = Pd.has_column df d.
Proof. done. Qed.

Lemma bind_Ok_l {A B} (a : A) (k : A -> Result B) : Ok a ≫= k = k a.
Proof. done. Qed.

Lemma bind_getitem {B} df c (k : list Cell -> Result B) :
  Pd.getitem df c ≫= k
  = if Pd.has_column df c then k (map (fun r => Pd.cell r c) (rows df))
    else Raise (KeyError c).
Proof. unfold Pd.getitem. by destruct (Pd.has_column df c). Qed.

Lemma bind_loc_iadd {B} df mask c tag (k : DataFrame -> Result B) :
  Pd.loc_iadd df mask c tag ≫= k
  = if Pd.has_column df c then k (Pd.iadd_where df mask c tag)
    else Raise (KeyError c).
Proof. unfold Pd.loc_iadd. by destruct (Pd.has_column df c). Qed.

Lemma bind_drop {B} df c (k : DataFrame -> Result B) :
  Pd.drop df c ≫= k
  = if Pd.has_column df c then k (Pd.without_column df c)
    else Raise (KeyError c).
Proof. unfold Pd.drop. by destruct (Pd.has_column df c). Qed.

Lemma bind_null_check {B} df field (k : DataFrame -> Result B) :
  Pd.has_column df "issue_type" = true ->
  null_check df field ≫= k
  = if Pd.has_column df field then
      k (Pd.iadd_where
           (Pd.loc_set df (Pd.isnull (map (fun r => Pd.cell r field) (rows df)))
              "is_bad" (Bool true))
           (Pd.isnull (map (fun r => Pd.cell r field) (rows df)))
           "issue_type" ("null_" +:+ field +:+ ";"))
    else Raise (KeyError field).
Proof.
  intros H. unfold null_check. rewrite bind_getitem.
  destruct (Pd.has_column df field); [|done].
  cbv zeta. unfold Pd.loc_iadd. rewrite has_column_loc_set, H. done.
Qed.

End Columns.


Create Rewrite HintDb cols.

(** Name the innermost table expression and keep only its column facts. *)
Ltac absorb_df :=
  match goal with
  | |- context [Pd.setitem_scalar ?D ?c ?v] =>
      is_var D; let d := fresh "d" in
      pose proof (fun x => has_column_setitem_scalar D c v x);
      set (d := Pd.setitem_scalar D c v) in *; clearbody d
  | |- context [Pd.setitem ?D ?c ?s] =>
      is_var D; let d := fresh "d" in
      pose proof (fun x => has_column_setitem D c s x);
      set (d := Pd.setitem D c s) in *; clearbody d
  | |- context [Pd.loc_set ?D ?m ?c ?v] =>
      is_var D; let d := fresh "d" in
      pose proof (fun x => has_column_loc_set D m c v x);
      set (d := Pd.loc_set D m c v) in *; clearbody d
  | |- context [Pd.iadd_where ?D ?m ?c ?t] =>
      is_var D; let d := fresh "d" in
      pose proof (fun x => has_column_iadd_where D m c t x);
      set (d := Pd.iadd_where D m c t) in *; clearbody d
  | |- context [Pd.without_column ?D ?c] =>
      is_var D; let d := fresh "d" in
      pose proof (fun x => has_column_without D c x);
      set (d := Pd.without_column D c) in *; clearbody d
  end.

Ltac column_facts :=
  repeat match goal with
         | H : forall x, Pd.has_column _ x = _ |- _ => rewrite !H
         end;
  cbn [String.eqb Ascii.eqb Bool.eqb orb andb negb];
  rewrite ?orb_false_r, ?orb_true_r, ?andb_true_r.

(** Evaluate the next column access of the engine. *)
Ltac next_access :=
  repeat absorb_df;
  first [ rewrite bind_Ok_l | rewrite bind_getitem | rewrite bind_loc_iadd
        | rewrite bind_drop
        | rewrite bind_null_check by (column_facts; done) ];
  column_facts.

Lemma dq_outcome df :
  match first_missing df with
  | Some c => data_quality_check_module df = Raise (KeyError c)
  | None =>
      exists df', data_quality_check_module df = Ok df'
                  /\ Pd.has_column df' "is_bad" = true
                  /\ Pd.has_column df' "issue_type" = true
  end.
Proof.
  unfold first_missing, required_columns, data_quality_check_module.
  cbn [find]. cbv zeta. unfold required_fields. cbn [for_each].
  repeat (next_access;
          try match goal with
              | |- context [Pd.has_column df ?c] =>
                  let H := fresh "Hcol" in
                  destruct (Pd.has_column df c) eqn:H;
                  cbn [negb orb]; cbv iota beta; [|done]
              end).
  repeat absorb_df. eexists; split; [reflexivity|]. column_facts. done.
Qed.

(** ** The admission gate and the ledger, step by step *)

#[global] Hint Rewrite has_column_setitem_scalar has_column_setitem
  has_column_loc_set has_column_iadd_where has_column_without
  has_column_select : cols.

Section Steps.

Implicit Types (w : World) (p : string).

Lemma load_processed_files_eq w :
  load_processed_files w = (Ok (list_to_set (recorded_names w)), w).
Proof.
  unfold load_processed_files, recorded_names, ledger_exists, read_ledger.
  unfold mbind, M_bind, mret, M_ret.
  destruct w as [? ? [l|] ? ? ? ? ?]; done.
Qed.

Lemma file_check_module_eq p w :
  file_check_module p w =
  let name := Os.basename p in
  if bool_decide (name ∈ recorded_names w) then
    (Ok false, add_log WARNING ("Skipping '" +:+ name +:+ "': Already processed.") w)
  else
    match files w !! p with
    | None => (Raise (OSError p), w)
    | Some f =>
        if (size f =? 0)%N then
          (Ok false, add_log WARNING ("Skipping '" +:+ name +:+ "': File is empty.") w)
        else if negb (Py.endswith p ".csv") then
          (Ok false,
           add_log WARNING ("Skipping '" +:+ name +:+ "': Invalid file extension.") w)
        else (Ok true, w)
    end.
Proof.
  unfold file_check_module. unfold mbind at 1. unfold M_bind.
  rewrite load_processed_files_eq. cbv zeta.
  rewrite (bool_decide_ext (Os.basename p ∈ (list_to_set (recorded_names w) : gset string))
             (Os.basename p ∈ recorded_names w)) by apply elem_of_list_to_set.
  destruct (bool_decide _); [done|].
  unfold mbind, M_bind, Os.getsize. destruct (files w !! p) as [f|]; [|done].
  destruct (size f =? 0)%N; [done|]. by destruct (negb _).
Qed.

Lemma save_processed_files_eq name w :
  save_processed_files name w =
  (Ok tt,
   set_ledger
     (default [] (ledger w)
      ++ [ {| file_name := name;
              processed_date := isoformat (clock w (ticks w)) |} ])
     (tick w)).
Proof. destruct w as [? ? [l|] ? ? ? ? ?]; done. Qed.

(** With no output directory named, [write_output_files] stops at
    [os.makedirs]. *)
Lemma write_output_files_no_dir df base w :
  write_output_files df "" base w = (Raise (OSError ""), w).
Proof. done. Qed.

Lemma write_output_files_eq df output_dir base w :
  output_dir <> "" ->
  Pd.has_column df "is_bad" = true ->
  Pd.has_column df "issue_type" = true ->
  write_output_files df output_dir base w = (Ok tt, written df output_dir base w).
Proof.
  intros Hdir%String.eqb_neq Hbad Hissue.
  unfold write_output_files, written, clean_records, bad_records.
  unfold mbind, M_bind, Os.path_exists_dir, Os.makedirs, lift, Pd.getitem, Pd.drop.
  rewrite Hdir. cbn [negb andb].
  repeat (progress
            (autorewrite with cols; rewrite ?Hbad, ?Hissue;
             cbn [String.eqb Ascii.eqb Bool.eqb andb negb]; cbv iota beta)).
  destruct (bool_decide (output_dir ∈ dirs w)); cbn -[df_empty];
    by destruct (df_empty _).
Qed.

Lemma written_effects df output_dir base w :
  effects (written df output_dir base w)
  = (effects w
     ++ output_writes df output_dir base (strftime (clock w (ticks w)))
          (bool_decide (output_dir ∈ dirs w)))%list.
Proof.
  unfold written, output_writes.
  destruct (bool_decide (output_dir ∈ dirs w)), (df_empty (bad_records df));
    cbn; by rewrite <- ?app_assoc.
Qed.

Lemma written_frame df output_dir base w :
  files (written df output_dir base w) = files w
  /\ glob_result (written df output_dir base w) = glob_result w
  /\ ledger (written df output_dir base w) = ledger w.
Proof.
  unfold written.
  by destruct (bool_decide (output_dir ∈ dirs w)), (df_empty (bad_records df)).
Qed.

Lemma dq_Ok_columns df df' :
  data_quality_check_module df = Ok df' ->
  Pd.has_column df' "is_bad" = true /\ Pd.has_column df' "issue_type" = true.
Proof.
  intros H. pose proof (dq_outcome df) as Hd.
  destruct (first_missing df); [congruence|].
  destruct Hd as (d & Hd & ?). rewrite H in Hd. by injection Hd as ->.
Qed.

Lemma process_candidate_eq output_dir p w :
  process_candidate output_dir p w =
  let name := Os.basename p in
  match outcome p w with
  | AlreadyProcessed =>
      (Ok tt, add_log WARNING ("Skipping '" +:+ name +:+ "': Already processed.") w)
  | EmptyFile =>
      (Ok tt, add_log WARNING ("Skipping '" +:+ name +:+ "': File is empty.") w)
  | InvalidExtension =>
      (Ok tt,
       add_log WARNING ("Skipping '" +:+ name +:+ "': Invalid file extension.") w)
  | NoSuchFile => (Raise (OSError p), w)
  | ReadFailed e =>
      (Ok tt,
       add_log WARNING
         ("Error reading file '" +:+ name +:+ "': " +:+ exn_text e +:+ ". Skipping.")
         (add_log WARNING (processing_msg p) w))
  | SchemaError e => (Raise e, add_log WARNING (processing_msg p) w)
  | Processed annotated =>
      if String.eqb output_dir "" then
        (Raise (OSError ""), add_log WARNING (processing_msg p) w)
      else
        (Ok tt,
         recorded name
           (written annotated output_dir (Os.splitext_root name)
              (add_log WARNING (processing_msg p) w)))
  end.
Proof.
  unfold process_candidate, outcome. unfold mbind at 1. unfold M_bind.
  rewrite file_check_module_eq. cbv zeta.
  destruct (bool_decide _); [done|].
  destruct (files w !! p) as [f|] eqn:Hf; [|done].
  destruct (size f =? 0)%N; [done|].
  destruct (negb _); [done|].
  unfold mbind, M_bind, try_except, pd_read_csv, logging_warning, lift.
  cbn [files add_log]. rewrite Hf.
  destruct (parsed f) as [df|e]; [|done].
  unfold mret, M_ret. cbv beta iota.
  destruct (data_quality_check_module df) as [annotated|e] eqn:Hdq; [|done].
  apply dq_Ok_columns in Hdq as [Hbad Hissue].
  destruct (String.eqb_spec output_dir "") as [-> | Hdir].
  - by rewrite write_output_files_no_dir.
  - rewrite write_output_files_eq by done.
    by rewrite save_processed_files_eq.
Qed.

End Steps.

(** ** The loop of [main] *)

Section Run.

Implicit Types (w t : World) (p : string) (l : list string).

(** One candidate either writes nothing, or is processed: its outputs are
    written, then its name is appended to the ledger.  A candidate whose
    table was annotated writes nothing only when no output directory is
    named, and then it raises. *)
Lemma step_cases output_dir p w r w' :
  process_candidate output_dir p w = (r, w') ->
  files w' = files w /\ glob_result w' = glob_result w
  /\ ((ledger w' = ledger w /\ effects w' = effects w
       /\ ((forall annotated, outcome p w <> Processed annotated)
           \/ (output_dir = "" /\ r = Raise (OSError ""))))
      \/ (exists annotated stamp date dir_there,
             outcome p w = Processed annotated /\ r = Ok tt
             /\ ledger w'
                = Some (default [] (ledger w)
                        ++ [ {| file_name := Os.basename p; processed_date := date |} ])
             /\ effects w'
                = (effects w
                   ++ file_writes annotated output_dir (Os.basename p) stamp date
                        dir_there (default [] (ledger w)))%list
             /\ output_dir <> "")).
Proof.
  rewrite process_candidate_eq. cbv zeta.
  destruct (outcome p w) as [ | | | |e|e|annotated] eqn:Ho;
    try (intros [= <- <-]; split; [done|]; split; [done|]; left;
         split; [done|]; split; [done|]; by left).
  destruct (String.eqb_spec output_dir "") as [-> | Hdir]; intros [= <- <-].
  { split; [done|]. split; [done|]. left. split; [done|]. split; [done|].
    by right. }
  set (w1 := add_log WARNING (processing_msg p) w).
  destruct (written_frame annotated output_dir (Os.splitext_root (Os.basename p)) w1)
    as (Hf & Hg & Hl).
  split; [done|]. split; [done|]. right.
  eexists annotated, _, _, _. split; [done|]. split; [done|].
  unfold recorded, set_ledger. cbn [ledger effects tick].
  rewrite Hl, written_effects. cbn [ledger effects add_log w1].
  split; [reflexivity|]. split; [|done]. unfold file_writes. by rewrite <- app_assoc.
Qed.

Lemma outcome_ext p w t :
  files t = files w -> recorded_names t = recorded_names w ->
  outcome p t = outcome p w.
Proof. intros Hf Hn. unfold outcome. by rewrite Hf, Hn. Qed.

Lemma outcome_Processed p w annotated :
  outcome p w = Processed annotated ->
  (Os.basename p ∉ recorded_names w)
  /\ exists f df, files w !! p = Some f /\ (size f =? 0)%N = false
                  /\ Py.endswith p ".csv" = true /\ parsed f = Ok df
                  /\ data_quality_check_module df = Ok annotated.
Proof.
  unfold outcome. case_bool_decide as Hn; [done|].
  destruct (files w !! p) as [f|]; [|done].
  destruct (size f =? 0)%N eqn:Hsize; [done|].
  destruct (Py.endswith p ".csv"); [|done]. cbn [negb].
  destruct (parsed f) as [df|] eqn:Hparsed; [|done].
  destruct (data_quality_check_module df) eqn:Hdq; [|done].
  intros [= ->]. split; [done|]. by exists f, df.
Qed.

Lemma for_cons {A} (x : A) (r : list A) (body : A -> M unit) w :
  for_ (x :: r) body w =
  match body x w with
  | (Ok _, w') => for_ r body w'
  | (Raise e, w') => (Raise e, w')
  end.
Proof. done. Qed.

(** A property of worlds kept by every candidate is kept by the loop. *)
Lemma for_invariant (Inv : World -> Prop) output_dir l w :
  (forall p t r t',
      p ∈ l -> Inv t -> process_candidate output_dir p t = (r, t') -> Inv t') ->
  Inv w -> Inv (for_ l (process_candidate output_dir) w).2.
Proof.
  revert w. induction l as [|p l IH]; intros w Hstep Hw; [done|].
  rewrite for_cons.
  destruct (process_candidate output_dir p w) as [[[]|e] w'] eqn:Hp.
  - apply IH.
    + intros q t r t' Hq. apply Hstep. by right.
    + eapply Hstep; [by left | done | done].
  - simpl. eapply Hstep; [by left | done | done].
Qed.

Lemma main_eq input_dir output_dir w :
  main input_dir output_dir w =
  match for_ (candidates_of input_dir w) (process_candidate output_dir) w with
  | (Ok _, w') =>
      (Ok tt,
       add_log WARNING (newline +:+ "Data quality pipeline execution complete.") w')
  | (Raise e, w') => (Raise e, w')
  end.
Proof. done. Qed.

(** The same, for [main]: its last log line changes nothing else. *)
Lemma main_invariant (Inv : World -> Prop) input_dir output_dir w :
  (forall p t r t',
      p ∈ candidates_of input_dir w -> Inv t ->
      process_candidate output_dir p t = (r, t') -> Inv t') ->
  (forall t msg, Inv t -> Inv (add_log WARNING msg t)) ->
  Inv w -> Inv (main input_dir output_dir w).2.
Proof.
  intros Hstep Hlog Hw. rewrite main_eq.
  pose proof (for_invariant Inv output_dir (candidates_of input_dir w) w Hstep Hw)
    as H.
  destruct (for_ _ _ w) as [[[]|e] w']; simpl in *; eauto.
Qed.

Lemma recorded_names_snoc w w' name date :
  ledger w'
  = Some (default [] (ledger w)
          ++ [ {| file_name := name; processed_date := date |} ]) ->
  recorded_names w' = recorded_names w ++ [name].
Proof. intros H. unfold recorded_names. rewrite H. simpl. by rewrite map_app. Qed.

Lemma recorded_names_same w w' :
  ledger w' = ledger w -> recorded_names w' = recorded_names w.
Proof. intros H. unfold recorded_names. by rewrite H. Qed.

End Run.

(** ** Claims about the rows of the annotated table *)

Section StringLemmas.

Lemma str_filter_filter (p q : ascii -> bool) (s : string) :
  Py.str_filter p (Py.str_filter q s) = Py.str_filter (fun c => q c && p c) s.
Proof.
  induction s as [|a s IH]; [done|]. simpl.
  destruct (q a); simpl; [|done]. destruct (p a); [by rewrite IH | done].
Qed.

Lemma str_all_forall (p : ascii -> bool) (s : string) :
  Py.str_all p s = true <-> forall c, In c (list_ascii_of_string s) -> p c = true.
Proof.
  induction s as [|a s IH]; simpl.
  - split; [intros _ c [] | done].
  - rewrite andb_true_iff, IH. split.
    + intros [Ha Hs] c [<- | Hc]; auto.
    + intros H. split; [apply H; by left | intros c Hc; apply H; by right].
Qed.

Lemma eqb_length_ne (s t : string) :
  String.length s <> String.length t -> String.eqb s t = false.
Proof. intros H. apply String.eqb_neq. by intros ->. Qed.

End StringLemmas.

Section PhoneLemmas.

Lemma normalize_phone_filter phone :
  normalize_phone phone
  = Py.str_filter (fun c => negb (Ascii.eqb c "+") && negb (Ascii.eqb c " "))
      (py_str phone).
Proof. unfold normalize_phone, Py.replace_with_empty. apply str_filter_filter. Qed.

Lemma phone_is_valid_iff phone :
  phone_is_valid phone = true <-> phone_digits_ok (normalize_phone phone).
Proof.
  unfold phone_is_valid, phone_digits_ok, Py.len.
  rewrite andb_true_iff, Nat.eqb_eq, <- str_all_forall.
  unfold Py.isdigit. destruct (normalize_phone phone); [|done].
  simpl. split; intros []; done.
Qed.

Lemma clean_phone_cases phone :
  pd_isna phone = false ->
  clean_and_validate_phone phone
  = if phone_is_valid phone then Str (normalize_phone phone) else Str "invalid".
Proof. intros H. unfold clean_and_validate_phone. by rewrite H. Qed.

Lemma valid_phone_not_sentinel phone :
  phone_is_valid phone = true ->
  String.eqb (normalize_phone phone) "invalid" = false.
Proof.
  intros [Hlen _]%phone_is_valid_iff. apply eqb_length_ne. by rewrite Hlen.
Qed.

Lemma rows_lookup df annotated i r :
  data_quality_check_module df = Ok annotated ->
  rows df !! i = Some r -> rows annotated !! i = Some (annotate_row r).
Proof.
  intros ->%dq_rows Hr.
  change (map annotate_row (rows df)) with (annotate_row <$> rows df).
  by rewrite list_lookup_fmap, Hr.
Qed.

Lemma rows_elem df annotated r' :
  data_quality_check_module df = Ok annotated ->
  r' ∈ rows annotated -> exists r, r ∈ rows df /\ r' = annotate_row r.
Proof.
  intros ->%dq_rows.
  change (map annotate_row (rows df)) with (annotate_row <$> rows df).
  intros (r & -> & ?)%list_elem_of_fmap. eauto.
Qed.

End PhoneLemmas.

(** C1: in every row of the annotated table, [is_bad] is true exactly when
    [issue_type] is a non-empty string. *)
Theorem is_bad_iff_issue_type_nonempty df annotated r :
  data_quality_check_module df = Ok annotated ->
  r ∈ rows annotated ->
  exists b s,
    r !! "is_bad" = Some (Bool b) /\ r !! "issue_type" = Some (Str s)
    /\ (b = true <-> s <> "").
Proof.
  intros Hdq Hr. destruct (rows_elem _ _ _ Hdq Hr) as (r0 & _ & ->).
  destruct (annotate_row_flagged r0) as [Hb Hs].
  exists (row_is_bad r0), (issue_tags r0). split; [done|]. split; [done|].
  unfold row_is_bad, issue_tags, tag_if. cbv zeta.
  destruct (cell_eqb _ _), (pd_isna (Pd.cell r0 "name")),
    (pd_isna (clean_and_validate_phone _)), (pd_isna (Pd.cell r0 "location"));
    vm_compute; split; congruence.
Qed.

Lemma sample_annotated :
  data_quality_check_module Sample.table = Ok Sample.annotated.
Proof. vm_compute. reflexivity. Qed.

Lemma is_bad_iff_issue_type_nonempty_witness :
  exists b s,
    annotate_row Sample.long_phone_row !! "is_bad" = Some (Bool b)
    /\ annotate_row Sample.long_phone_row !! "issue_type" = Some (Str s)
    /\ (b = true <-> s <> "").
Proof.
  apply (is_bad_iff_issue_type_nonempty Sample.table Sample.annotated).
  - vm_compute. reflexivity.
  - apply list_elem_of_In. simpl. auto.
Defined.

(** ** The phone rule *)

Section TagLemmas.

Implicit Types (r : Row).

(** The tags of a row whose phone is malformed start with the phone tag. *)
Lemma issue_tags_invalid r :
  clean_and_validate_phone (Pd.cell r "phone") = Str "invalid" ->
  row_is_bad r = true
  /\ exists rest, issue_tags r = "invalid_phone;" +:+ rest
                  /\ Py.contains "invalid_phone;" (issue_tags r) = true
                  /\ Py.contains "null_phone;" (issue_tags r) = false.
Proof.
  intros H. unfold row_is_bad, issue_tags, tag_if. rewrite H. cbv zeta.
  split; [done|]. eexists. split; [reflexivity|].
  destruct (pd_isna (Pd.cell r "name")), (pd_isna (Pd.cell r "location"));
    vm_compute; done.
Qed.

(** A row whose cleaned phone is a string other than the sentinel carries
    neither phone tag. *)
Lemma issue_tags_valid r n :
  clean_and_validate_phone (Pd.cell r "phone") = Str n ->
  String.eqb n "invalid" = false ->
  Py.contains "invalid_phone;" (issue_tags r) = false
  /\ Py.contains "null_phone;" (issue_tags r) = false.
Proof.
  intros H Hn. unfold issue_tags, tag_if. rewrite H. cbv zeta.
  cbn [cell_eqb pd_isna]. rewrite Hn.
  destruct (pd_isna (Pd.cell r "name")), (pd_isna (Pd.cell r "location"));
    vm_compute; done.
Qed.

(** A row whose phone is missing carries the null tag and not the phone
    rule's tag. *)
Lemma issue_tags_null r :
  clean_and_validate_phone (Pd.cell r "phone") = Null ->
  row_is_bad r = true
  /\ Py.contains "null_phone;" (issue_tags r) = true
  /\ Py.contains "invalid_phone;" (issue_tags r) = false.
Proof.
  intros H. unfold row_is_bad, issue_tags, tag_if. rewrite H. cbv zeta.
  destruct (pd_isna (Pd.cell r "name")), (pd_isna (Pd.cell r "location"));
    vm_compute; done.
Qed.

End TagLemmas.

(** C2, the code departs from the claim: ten superscript twos (U+00B2)
    are not decimal digits, so the claim has the cleaned value "invalid"
    and the row flagged; yet the phone rule, which tests [str.isdigit]
    where the claim (and the code's comment on correct phone numbers) asks
    for the digits 0-9, keeps them as a valid phone and the row is not
    flagged. *)
Lemma superscript_phone_is_kept :
  let phone := Str (Py.repeat_char "178"%char 10) in
  let r := Sample.row (Str "Cafe Uno") phone (Str "Downtown") Null Null in
  pd_isna phone = false
  /\ Py.len (normalize_phone phone) = 10
  /\ Py.str_all Py.char_isdecimal (normalize_phone phone) = false
  /\ clean_and_validate_phone phone = phone
  /\ clean_and_validate_phone phone <> Str "invalid"
  /\ annotate_row r !! "is_bad" = Some (Bool false)
  /\ annotate_row r !! "issue_type" = Some (Str "").
Proof. vm_compute. repeat split; congruence. Qed.

(** What the phone rule does with a non-null phone: it loses every "+"
    and space; if the result has ten characters, each a digit in the sense
    of [str.isdigit] (0-9 or a superscript digit), it is the cleaned value
    and the row gets no "invalid_phone;" tag; otherwise the cleaned value
    is "invalid", the row is bad and its [issue_type] starts with
    "invalid_phone;".  So "555 123 4567" cleans to "5551234567". *)
Theorem phone_rule_on_non_null df annotated i r :
  data_quality_check_module df = Ok annotated ->
  rows df !! i = Some r ->
  pd_isna (Pd.cell r "phone") = false ->
  let n := Py.str_filter
             (fun c => negb (Ascii.eqb c "+") && negb (Ascii.eqb c " "))
             (py_str (Pd.cell r "phone")) in
  exists r' tags,
    rows annotated !! i = Some r'
    /\ r' !! "issue_type" = Some (Str tags)
    /\ (phone_digits_ok n ->
        Pd.cell r' "phone" = Str n
        /\ Py.contains "invalid_phone;" tags = false)
    /\ (~ phone_digits_ok n ->
        Pd.cell r' "phone" = Str "invalid"
        /\ r' !! "is_bad" = Some (Bool true)
        /\ exists rest, tags = "invalid_phone;" +:+ rest)
    /\ clean_and_validate_phone (Str "555 123 4567") = Str "5551234567".
Proof.
  intros Hdq Hr Hna n.
  assert (Hn : n = normalize_phone (Pd.cell r "phone"))
    by (symmetry; apply normalize_phone_filter).
  exists (annotate_row r), (issue_tags r).
  destruct (annotate_row_flagged r) as [Hb Hs].
  split; [by eapply rows_lookup|]. split; [done|].
  rewrite annotate_row_phone, Hn, <- phone_is_valid_iff.
  pose proof (clean_phone_cases _ Hna) as Hc.
  destruct (phone_is_valid (Pd.cell r "phone")) eqn:Hv.
  - split; [|split; [congruence | done]].
    intros _. split; [done|].
    eapply issue_tags_valid; [done|]. by apply valid_phone_not_sentinel.
  - split; [congruence|]. split; [|done].
    intros _. destruct (issue_tags_invalid r Hc) as (Hbad & rest & Ht & _).
    split; [done|]. split; [congruence | eauto].
Qed.

Lemma phone_rule_on_non_null_witness :
  exists r' tags,
    rows Sample.annotated !! 2 = Some r'
    /\ r' !! "issue_type" = Some (Str tags)
    /\ (phone_digits_ok "15551234567" ->
        Pd.cell r' "phone" = Str "15551234567"
        /\ Py.contains "invalid_phone;" tags = false)
    /\ (~ phone_digits_ok "15551234567" ->
        Pd.cell r' "phone" = Str "invalid"
        /\ r' !! "is_bad" = Some (Bool true)
        /\ exists rest, tags = "invalid_phone;" +:+ rest)
    /\ clean_and_validate_phone (Str "555 123 4567") = Str "5551234567".
Proof.
  apply (phone_rule_on_non_null Sample.table Sample.annotated 2
           Sample.long_phone_row).
  - vm_compute. reflexivity.
  - reflexivity.
  - reflexivity.
Defined.



(** C4: a missing phone is cleaned to no value: the cell stays null,
    which is not the sentinel "invalid"; after the phone rule alone the
    row is not bad and has no tag, and the finished row has no
    "invalid_phone;" tag. *)
Theorem null_phone_stays_null df annotated i r :
  data_quality_check_module df = Ok annotated ->
  rows df !! i = Some r ->
  pd_isna (Pd.cell r "phone") = true ->
  clean_and_validate_phone (Pd.cell r "phone") = Null
  /\ Null <> Str "invalid"
  /\ flagged false "" (phone_rule_row (init_row r))
  /\ exists r' tags,
       rows annotated !! i = Some r'
       /\ Pd.cell r' "phone" = Null
       /\ r' !! "issue_type" = Some (Str tags)
       /\ Py.contains "invalid_phone;" tags = false.
Proof.
  intros Hdq Hr Hna.
  assert (Hc : clean_and_validate_phone (Pd.cell r "phone") = Null)
    by (unfold clean_and_validate_phone; by rewrite Hna).
  split; [done|]. split; [done|]. split.
  - pose proof (flagged_phone_rule _ _ _ (flagged_init r)) as H.
    cbv zeta in H. rewrite cell_init, Hc in H by discriminate. exact H.
  - exists (annotate_row r), (issue_tags r).
    destruct (annotate_row_flagged r) as [Hb Hs].
    split; [by eapply rows_lookup|]. rewrite annotate_row_phone.
    split; [done|]. split; [done|].
    by destruct (issue_tags_null r Hc) as (_ & _ & ?).
Qed.

Lemma null_phone_stays_null_witness :
  clean_and_validate_phone (Pd.cell Sample.null_phone_row "phone") = Null
  /\ Null <> Str "invalid"
  /\ flagged false "" (phone_rule_row (init_row Sample.null_phone_row))
  /\ exists r' tags,
       rows Sample.annotated !! 3 = Some r'
       /\ Pd.cell r' "phone" = Null
       /\ r' !! "issue_type" = Some (Str tags)
       /\ Py.contains "invalid_phone;" tags = false.
Proof.
  apply (null_phone_stays_null Sample.table Sample.annotated 3
           Sample.null_phone_row).
  - vm_compute. reflexivity.
  - reflexivity.
  - reflexivity.
Defined.

(** ** The descriptive-field rule *)

Lemma str_filter_ext (p q : ascii -> bool) (s : string) :
  (forall c, p c = q c) -> Py.str_filter p s = Py.str_filter q s.
Proof.
  intros H. induction s as [|a s IH]; [done|]. simpl. by rewrite H, IH.
Qed.

(** What [clean_descriptive_field] keeps: word characters (alphanumerics
    and the underscore), whitespace and commas. *)
Lemma clean_descriptive_field_keeps text :
  clean_descriptive_field text
  = if pd_isna text then Null
    else Str (Py.str_filter
                (fun c => Py.char_isalnum c || Ascii.eqb c "_"
                          || Py.char_isspace c || Ascii.eqb c ",")
                (py_str text)).
Proof.
  unfold clean_descriptive_field, Re.sub_empty, descriptive_pattern, Re.neg_class.
  destruct (pd_isna text); [done|]. apply (f_equal Str).
  apply str_filter_ext. intros c. cbn [existsb Re.item_matches].
  by rewrite negb_involutive, orb_false_r, orb_assoc.
Qed.

(** C5, the code departs from the claim: the underscore is neither
    alphanumeric nor a space nor a comma, and [clean_descriptive_field]
    keeps it (as it keeps a tab), where the documented rule removes it.
    Null passes through, and the spec's example is cleaned as stated. *)
Theorem descriptive_cleaning_keeps_underscore :
  clean_descriptive_field (Str "a_b") = Str "a_b"
  /\ strip_as_documented "a_b" = "ab"
  /\ clean_descriptive_field (Str ("a" +:+ tab +:+ "b")) = Str ("a" +:+ tab +:+ "b")
  /\ strip_as_documented ("a" +:+ tab +:+ "b") = "ab"
  /\ Pd.cell
       (annotate_row
          (Sample.row (Str "Cafe Uno") (Str "5551234567") (Str "Downtown")
             (Str "a_b") Null))
       "address" = Str "a_b"
  /\ clean_descriptive_field Null = Null
  /\ clean_descriptive_field (Str "Hello, World!! #123") = Str "Hello, World 123".
Proof. vm_compute. repeat split; reflexivity. Qed.

(** ** The admission gate *)

(** Settle a decidable statement about concrete data by evaluation. *)
Ltac by_computation := apply (bool_decide_unpack _); vm_compute; exact I.

Section Endswith.

Lemma length_append (s t : string) :
  String.length (s +:+ t) = String.length s + String.length t.
Proof.
  induction s as [|a s IH]; [done|].
  change (S (String.length (s +:+ t)) = S (String.length s + String.length t)).
  by rewrite IH.
Qed.

Lemma substring_all (s : string) : String.substring 0 (String.length s) s = s.
Proof. induction s as [|a s IH]; [done|]. simpl. by rewrite IH. Qed.

Lemma substring_append_r (pre suf : string) :
  String.substring (String.length pre) (String.length suf) (pre +:+ suf) = suf.
Proof.
  induction pre as [|a pre IH]; [apply substring_all|].
  change (String.substring (String.length pre) (String.length suf) (pre +:+ suf) = suf).
  exact IH.
Qed.

Lemma substring_split (n : nat) (s : string) :
  n <= String.length s ->
  s = String.substring 0 n s +:+ String.substring n (String.length s - n) s.
Proof.
  revert n. induction s as [|a s IH]; intros [|n] Hn; simpl in *;
    try lia; try done.
  - change (String a s = String a (String.substring 0 (String.length s) s)).
    by rewrite substring_all.
  - change (String a s
            = String a (String.substring 0 n s
                        +:+ String.substring n (String.length s - n) s)).
    f_equal. apply IH. lia.
Qed.

(** [s.endswith(suffix)] holds exactly when [s] is something followed by
    [suffix]. *)
Lemma endswith_iff (s suffix : string) :
  Py.endswith s suffix = true <-> exists stem, s = stem +:+ suffix.
Proof.
  unfold Py.endswith, Py.len. rewrite andb_true_iff, Nat.leb_le, String.eqb_eq.
  split.
  - intros [Hle Hsub].
    exists (String.substring 0 (String.length s - String.length suffix) s).
    pose proof (substring_split (String.length s - String.length suffix) s) as H.
    replace (String.length s - (String.length s - String.length suffix))
      with (String.length suffix) in H by lia.
    rewrite Hsub in H. apply H. lia.
  - intros [stem ->]. rewrite length_append. split; [lia|].
    replace (String.length stem + String.length suffix - String.length suffix)
      with (String.length stem) by lia.
    apply substring_append_r.
Qed.

End Endswith.

(** C6: the gate tests, in this order, whether the base name is in the
    ledger, whether the file has zero bytes (whatever its extension) and
    whether the path ends in ".csv"; it reports the first test that
    matches and admits the file when none does. *)
Theorem admission_gate_order w file_path :
  let name := Os.basename file_path in
  (name ∈ recorded_names w ->
   file_check_module file_path w
   = (Ok false,
      add_log WARNING ("Skipping '" +:+ name +:+ "': Already processed.") w))
  /\ (forall f,
        name ∉ recorded_names w -> files w !! file_path = Some f ->
        size f = 0%N ->
        file_check_module file_path w
        = (Ok false,
           add_log WARNING ("Skipping '" +:+ name +:+ "': File is empty.") w))
  /\ (forall f,
        name ∉ recorded_names w -> files w !! file_path = Some f ->
        size f <> 0%N ->
        ~ (exists stem, file_path = stem +:+ ".csv") ->
        file_check_module file_path w
        = (Ok false,
           add_log WARNING
             ("Skipping '" +:+ name +:+ "': Invalid file extension.") w))
  /\ (forall f,
        name ∉ recorded_names w -> files w !! file_path = Some f ->
        size f <> 0%N ->
        (exists stem, file_path = stem +:+ ".csv") ->
        file_check_module file_path w = (Ok true, w)).
Proof.
  intros name. rewrite file_check_module_eq. cbv zeta. fold name.
  split; [intros Hin; by rewrite bool_decide_eq_true_2|].
  split; [|split]; intros f Hout Hf Hsize;
    rewrite bool_decide_eq_false_2, Hf by done.
  - by rewrite Hsize.
  - intros Hext. apply N.eqb_neq in Hsize. rewrite Hsize.
    rewrite <- endswith_iff in Hext. by destruct (Py.endswith file_path ".csv").
  - intros Hext. apply N.eqb_neq in Hsize. rewrite Hsize.
    apply endswith_iff in Hext. by rewrite Hext.
Qed.

Lemma admission_gate_order_witness :
  file_check_module "in/data_file_1.csv" Sample.recorded_world
  = (Ok false,
     add_log WARNING "Skipping 'data_file_1.csv': Already processed."
       Sample.recorded_world)
  /\ file_check_module "in/data_file_2.csv" Sample.recorded_world
     = (Ok false,
        add_log WARNING "Skipping 'data_file_2.csv': File is empty."
          Sample.recorded_world)
  /\ file_check_module "in/data_file_3.csv" Sample.recorded_world
     = (Ok true, Sample.recorded_world).
Proof.
  destruct (admission_gate_order Sample.recorded_world "in/data_file_1.csv")
    as (H1 & _).
  destruct (admission_gate_order Sample.recorded_world "in/data_file_2.csv")
    as (_ & H2 & _).
  destruct (admission_gate_order Sample.recorded_world "in/data_file_3.csv")
    as (_ & _ & _ & H4).
  split; [|split].
  - apply H1. by_computation.
  - eapply H2; [by_computation | reflexivity | reflexivity].
  - eapply H4; [by_computation | reflexivity | discriminate
               | by exists "in/data_file_3"].
Defined.

(** ** The ledger *)

(** C10: [save_processed_files] appends a record whatever the ledger
    holds, so saving a name that is already there leaves it twice; the
    names stay unique through [main] because it saves a name only after
    [file_check_module] found it absent. *)
Theorem ledger_uniqueness_rests_on_the_gate :
  (forall name w,
      let w' := (save_processed_files name w).2 in
      (exists date,
          ledger w'
          = Some (default [] (ledger w)
                  ++ [ {| file_name := name; processed_date := date |} ]))
      /\ (name ∈ recorded_names w ->
          recorded_names w' = recorded_names w ++ [name]
          /\ ~ NoDup (recorded_names w')))
  /\ (forall input_dir output_dir w,
        NoDup (recorded_names w) ->
        NoDup (recorded_names (main input_dir output_dir w).2))
  /\ (forall output_dir p w w',
        process_candidate output_dir p w = (Ok tt, w') ->
        ledger w' <> ledger w ->
        file_check_module p w = (Ok true, w)
        /\ (Os.basename p ∉ recorded_names w)
        /\ recorded_names w' = recorded_names w ++ [Os.basename p]).
Proof.
  split; [|split].
  - intros name w w'. subst w'. rewrite save_processed_files_eq. cbn [snd].
    fold (recorded name w).
    assert (Hl : ledger (recorded name w)
                 = Some (default [] (ledger w)
                         ++ [ {| file_name := name;
                                 processed_date := isoformat (clock w (ticks w)) |} ]))
      by done.
    split; [eauto|]. intros Hin.
    pose proof (recorded_names_snoc _ _ _ _ Hl) as Hn.
    split; [done|]. rewrite Hn. intros Hnd%NoDup_app.
    destruct Hnd as (_ & Hdisj & _). apply (Hdisj name Hin). by left.
  - intros input_dir output_dir w Hw.
    apply (main_invariant (fun t => NoDup (recorded_names t))); [|done|done].
    intros p t r t' _ Ht Hp.
    destruct (step_cases _ _ _ _ _ Hp) as (_ & _ & [(Hl & _) | Hproc]).
    + by rewrite (recorded_names_same _ _ Hl).
    + destruct Hproc as (a & stamp & date & dt & Ho & _ & Hl & _).
      rewrite (recorded_names_snoc _ _ _ _ Hl).
      apply outcome_Processed in Ho as [Hnew _].
      apply NoDup_app. split; [done|]. split; [|apply NoDup_singleton].
      intros x Hx ->%list_elem_of_singleton. done.
  - intros output_dir p w w' Hp Hchanged.
    destruct (step_cases _ _ _ _ _ Hp) as (_ & _ & [(Hl & _) | Hproc]); [done|].
    destruct Hproc as (a & stamp & date & dt & Ho & _ & Hl & _).
    apply outcome_Processed in Ho as (Hnew & f & df & Hf & Hsize & Hext & _).
    split; [|split; [done | by eapply recorded_names_snoc]].
    rewrite file_check_module_eq. cbv zeta.
    by rewrite bool_decide_eq_false_2, Hf, Hsize, Hext.
Qed.

Lemma ledger_uniqueness_rests_on_the_gate_witness :
  (recorded_names (save_processed_files "data_file_1.csv" Sample.recorded_world).2
   = ["data_file_1.csv"; "data_file_1.csv"]
   /\ ~ NoDup (recorded_names
                 (save_processed_files "data_file_1.csv" Sample.recorded_world).2))
  /\ NoDup (recorded_names (main "in" "out" Sample.recorded_world).2).
Proof.
  destruct ledger_uniqueness_rests_on_the_gate as (Happend & Hmain & _).
  split.
  - destruct (Happend "data_file_1.csv" Sample.recorded_world) as (_ & H).
    apply H. by_computation.
  - apply Hmain. by_computation.
Defined.

(** ** Order of the writes *)

Section Writes.

Implicit Types (w t : World) (p : string) (l : list string).

(** The writes of the loop are those of its candidates, one after the
    other. *)
Lemma run_effects output_dir w0 l0 l w :
  files w = files w0 -> (forall p, p ∈ l -> p ∈ l0) ->
  exists groups,
    effects (for_ l (process_candidate output_dir) w).2 = effects w ++ concat groups
    /\ Forall (candidate_writes output_dir w0 l0) groups.
Proof.
  revert w. induction l as [|p l IH]; intros w Hfiles Hsub.
  - exists []. simpl. by rewrite app_nil_r.
  - rewrite for_cons.
    destruct (process_candidate output_dir p w) as [r w'] eqn:Hp.
    destruct (step_cases _ _ _ _ _ Hp) as (Hf & _ & Hcases).
    assert (Hstep : exists g, effects w' = effects w ++ g
                              /\ candidate_writes output_dir w0 l0 g).
    { destruct Hcases as [(_ & He & _) | (a & stamp & date & dt & Ho & _ & _ & He & _)].
      - exists []. rewrite app_nil_r. split; [done | constructor].
      - apply outcome_Processed in Ho as (_ & f & df & Hfp & _ & _ & Hpar & Hdq).
        eexists. split; [exact He|].
        apply (processed_writes _ _ _ p f df); try done.
        + apply Hsub. by left.
        + by rewrite <- Hfiles. }
    destruct Hstep as (g & Hg & Hcw).
    destruct r as [[]|e].
    + destruct (IH w') as (groups & He & Hall); [congruence | |].
      { intros q Hq. apply Hsub. by right. }
      exists (g :: groups). rewrite He, Hg. simpl. rewrite <- app_assoc.
      split; [done | by constructor].
    + exists [g]. simpl. rewrite Hg, app_nil_r. split; [done|].
      by repeat constructor.
Qed.

Lemma main_effects input_dir output_dir w :
  effects (main input_dir output_dir w).2
  = effects (for_ (candidates_of input_dir w) (process_candidate output_dir) w).2.
Proof. rewrite main_eq. by destruct (for_ _ _ w) as [[[]|e] w']. Qed.

Lemma main_ledger input_dir output_dir w :
  ledger (main input_dir output_dir w).2
  = ledger (for_ (candidates_of input_dir w) (process_candidate output_dir) w).2.
Proof. rewrite main_eq. by destruct (for_ _ _ w) as [[[]|e] w']. Qed.

Lemma output_writes_no_ledger df output_dir base stamp dir_there records :
  LedgerWrite records ∉ output_writes df output_dir base stamp dir_there.
Proof.
  unfold output_writes. intros H. apply list_elem_of_In in H.
  destruct dir_there, (df_empty (bad_records df)); simpl in H;
    intuition discriminate.
Qed.

(** Each ledger write closes the group of one file: that file's outputs
    come right before it. *)
Lemma ledger_write_position output_dir w l groups :
  Forall (candidate_writes output_dir w l) groups ->
  forall pre records post,
    concat groups = pre ++ LedgerWrite records :: post ->
    exists earlier p f df annotated stamp date dir_there old,
      p ∈ l /\ files w !! p = Some f /\ parsed f = Ok df
      /\ data_quality_check_module df = Ok annotated
      /\ pre = earlier
               ++ output_writes annotated output_dir
                    (Os.splitext_root (Os.basename p)) stamp dir_there
      /\ records
         = old ++ [ {| file_name := Os.basename p; processed_date := date |} ].
Proof.
  induction 1 as [|g groups Hg _ IH]; intros pre records post Heq.
  - by destruct pre.
  - destruct Hg as [|p f df annotated stamp date dir_there old Hp Hf Hpar Hdq];
      [by eapply IH|].
    simpl in Heq. unfold file_writes in Heq.
    set (ow := output_writes annotated output_dir
                 (Os.splitext_root (Os.basename p)) stamp dir_there) in *.
    set (rec := LedgerWrite
                  (old ++ [ {| file_name := Os.basename p;
                               processed_date := date |} ])) in *.
    assert (Hlater : forall m post',
               concat groups = m ++ LedgerWrite records :: post' ->
               pre = (ow ++ [rec]) ++ m ->
               exists earlier p f df annotated stamp date dir_there old,
                 p ∈ l /\ files w !! p = Some f /\ parsed f = Ok df
                 /\ data_quality_check_module df = Ok annotated
                 /\ pre = earlier
                          ++ output_writes annotated output_dir
                               (Os.splitext_root (Os.basename p)) stamp dir_there
                 /\ records
                    = old ++ [ {| file_name := Os.basename p;
                                  processed_date := date |} ]).
    { intros m post' Hm Hpre.
      destruct (IH _ _ _ Hm)
        as (earlier & q & f' & df' & a & s & d & dt & o & ? & ? & ? & ? & He & Hrec).
      exists ((ow ++ [rec]) ++ earlier), q, f', df', a, s, d, dt, o.
      do 4 (split; [done|]). split; [|done].
      by rewrite Hpre, He, <- !app_assoc. }
    apply app_eq_app in Heq as (m & [[Hl Hr] | [Hl Hr]]).
    + destruct m as [|x m].
      * rewrite app_nil_r in Hl. simpl in Hr. symmetry in Hr.
        apply (Hlater [] post Hr). by rewrite app_nil_r.
      * simpl in Hr. injection Hr as <- Hr.
        destruct m as [|y m _] using rev_ind.
        -- apply app_inj_tail in Hl as [Hl Hlw]. subst rec. injection Hlw as <-.
           exists [], p, f, df, annotated, stamp, date, dir_there, old.
           do 4 (split; [done|]). split; [by rewrite <- Hl | done].
        -- rewrite app_comm_cons, app_assoc in Hl.
           apply app_inj_tail in Hl as [Hl _].
           exfalso. apply (output_writes_no_ledger annotated output_dir
                             (Os.splitext_root (Os.basename p)) stamp dir_there
                             records).
           fold ow. rewrite Hl. apply elem_of_app. right. by left.
    + by apply (Hlater m post).
Qed.

End Writes.

(** C9, refuted as stated: the ledger is keyed by base name.  With two
    candidates [data/a/data_file_1.csv], which [pd.read_csv] rejects, and
    [data/b/data_file_1.csv], which is good, the run records the name
    data_file_1.csv, and from then on the gate refuses the file that was
    never read as already processed: no later run retries it. *)
Lemma read_failure_recorded_under_shared_name :
  let w := Sample.shared_name_world in
  let w' := (main "data/*" "out" w).2 in
  candidates_of "data/*" w = ["data/a/data_file_1.csv"; "data/b/data_file_1.csv"]
  /\ outcome "data/a/data_file_1.csv" w
     = ReadFailed (CsvError "Error tokenizing data")
  /\ (main "data/*" "out" w).1 = Ok tt
  /\ recorded_names w' = ["data_file_1.csv"]
  /\ outcome "data/a/data_file_1.csv" w' = AlreadyProcessed
  /\ skipped_as_already_processed "data/a/data_file_1.csv" w'.
Proof.
  intros w w'. repeat split; vm_compute; reflexivity.
Qed.

(** C9, amended: in a run of [main] the writes come in groups, one per
    processed file: every ledger write is directly preceded by the output
    writes of the file it records, made from that file's annotated table
    (the clean file, and then the bad file exactly when some row is bad),
    and when no output can be written because no output directory is
    named, nothing is recorded.  Handling a file that [pd.read_csv]
    rejects writes no ledger record and no output; and when no other
    candidate has its base name, that name is not in the ledger after the
    run, so the gate admits the file again in a later run. *)
Theorem outputs_before_ledger_and_no_record_on_read_failure
    input_dir output_dir w :
  let w' := (main input_dir output_dir w).2 in
  let l := candidates_of input_dir w in
  (exists groups,
      effects w' = effects w ++ concat groups
      /\ Forall (candidate_writes output_dir w l) groups)
  /\ (forall pre records post,
        effects w' = effects w ++ pre ++ LedgerWrite records :: post ->
        exists p f df annotated earlier made_dir stamp date old,
          p ∈ l /\ files w !! p = Some f /\ parsed f = Ok df
          /\ data_quality_check_module df = Ok annotated
          /\ records
             = old ++ [ {| file_name := Os.basename p; processed_date := date |} ]
          /\ (made_dir = [] \/ made_dir = [Makedirs output_dir])
          /\ pre
             = earlier ++ made_dir
               ++ [ToCsv (clean_file_path output_dir
                            (Os.splitext_root (Os.basename p)) stamp)
                     (clean_records annotated)]
               ++ (if df_empty (bad_records annotated) then []
                   else [ToCsv (bad_file_path output_dir
                                  (Os.splitext_root (Os.basename p)))
                           (bad_records annotated)]))
  /\ (output_dir = "" -> ledger w' = ledger w /\ effects w' = effects w)
  /\ (forall p f e t,
        files t !! p = Some f -> parsed f = Raise e ->
        let t' := (process_candidate output_dir p t).2 in
        ledger t' = ledger t /\ effects t' = effects t)
  /\ (forall p f e,
        files w !! p = Some f -> parsed f = Raise e ->
        Os.basename p ∉ recorded_names w ->
        (forall q, q ∈ l -> Os.basename q = Os.basename p -> q = p) ->
        (Os.basename p ∉ recorded_names w')
        /\ (size f <> 0%N -> Py.endswith p ".csv" = true ->
            file_check_module p w' = (Ok true, w'))).
Proof.
  intros w' l.
  destruct (run_effects output_dir w l l w) as (groups & He & Hall); [done..|].
  pose proof (main_effects input_dir output_dir w) as Hm. fold l w' in Hm.
  rewrite <- Hm in He.
  split; [by exists groups|]. split; [|split; [|split]].
  - intros pre records post Heq. rewrite He in Heq.
    apply app_inv_head in Heq.
    destruct (ledger_write_position _ _ _ _ Hall _ _ _ Heq)
      as (earlier & p & f & df & a & s & d & dt & o
          & Hp & Hf & Hpar & Hdq & Hpre & Hrec).
    exists p, f, df, a, earlier, (if dt then [] else [Makedirs output_dir]),
      s, d, o.
    do 5 (split; [done|]). split; [by destruct dt; auto|].
    rewrite Hpre. unfold output_writes. done.
  - intros ->. subst w'.
    apply (main_invariant
             (fun t => ledger t = ledger w /\ effects t = effects w));
      [|done|done].
    intros q t r t' _ [Hlt Het] Hstep.
    destruct (step_cases _ _ _ _ _ Hstep)
      as (_ & _ & [(Hl & Heff & _) | (a & s & d & dt & _ & _ & _ & _ & Hdir)]);
      [split; congruence | done].
  - intros p f e t Hf Hpar t'. subst t'.
    destruct (process_candidate output_dir p t) as [r t'] eqn:Hstep.
    destruct (step_cases _ _ _ _ _ Hstep)
      as (_ & _ & [(Hl & Heff & _) | (a & s & d & dt & Ho & _)]); [done|].
    apply outcome_Processed in Ho as (_ & f' & df & Hf' & _ & _ & Hok & _).
    congruence.
  - intros p f e Hf Hparsed Hnew Huniq.
    assert (Hinv : files w' = files w /\ Os.basename p ∉ recorded_names w').
    { subst w'.
      apply (main_invariant
               (fun t => files t = files w /\ Os.basename p ∉ recorded_names t));
        [|done|done].
      intros q t r t' Hq [Hft Hnt] Hstep.
      destruct (step_cases _ _ _ _ _ Hstep) as (Hft' & _ & [(Hl & _) | Hproc]).
      - split; [congruence|]. by rewrite (recorded_names_same _ _ Hl).
      - destruct Hproc as (a & stamp & date & dt & Ho & _ & Hl & _).
        split; [congruence|]. rewrite (recorded_names_snoc _ _ _ _ Hl).
        intros [Hin | Heq%list_elem_of_singleton]%elem_of_app; [done|].
        apply outcome_Processed in Ho as (_ & f' & df & Hf' & _ & _ & Hok & _).
        rewrite (Huniq q Hq (eq_sym Heq)), Hft, Hf in Hf'. congruence. }
    destruct Hinv as [Hfiles Hnot]. split; [done|].
    intros Hsize Hext. rewrite file_check_module_eq. cbv zeta.
    rewrite bool_decide_eq_false_2, Hfiles, Hf by done.
    apply N.eqb_neq in Hsize. by rewrite Hsize, Hext.
Qed.

Lemma outputs_before_ledger_and_no_record_on_read_failure_witness :
  let w' := (main "in" "out" Sample.world).2 in
  (exists p f df annotated earlier made_dir stamp date old,
      p ∈ candidates_of "in" Sample.world
      /\ files Sample.world !! p = Some f /\ parsed f = Ok df
      /\ data_quality_check_module df = Ok annotated
      /\ [ {| file_name := "data_file_1.csv";
              processed_date := "2024-01-01T12:00:00" |} ]
         = old ++ [ {| file_name := Os.basename p; processed_date := date |} ]
      /\ (made_dir = [] \/ made_dir = [Makedirs "out"])
      /\ [Makedirs "out";
          ToCsv "out/data_file_1_cleaned_20240101120000.out"
            (clean_records Sample.annotated);
          ToCsv "out/data_file_1.bad" (bad_records Sample.annotated)]
         = earlier ++ made_dir
           ++ [ToCsv (clean_file_path "out"
                        (Os.splitext_root (Os.basename p)) stamp)
                 (clean_records annotated)]
           ++ (if df_empty (bad_records annotated) then []
               else [ToCsv (bad_file_path "out"
                              (Os.splitext_root (Os.basename p)))
                       (bad_records annotated)]))
  /\ (ledger (main "in" "" Sample.world).2 = None
      /\ effects (main "in" "" Sample.world).2 = [])
  /\ ("data_file_3.csv" ∉ recorded_names w')
  /\ file_check_module "in/data_file_3.csv" w' = (Ok true, w').
Proof.
  intros w'.
  destruct (outputs_before_ledger_and_no_record_on_read_failure
              "in" "out" Sample.world) as (_ & Horder & _ & _ & Hread).
  split; [|split].
  - apply (Horder _ _ []). vm_compute. reflexivity.
  - destruct (outputs_before_ledger_and_no_record_on_read_failure
                "in" "" Sample.world) as (_ & _ & Hnone & _).
    apply Hnone. reflexivity.
  - destruct (Hread "in/data_file_3.csv"
                {| size := 57; parsed := Raise (CsvError "Error tokenizing data") |}
                (CsvError "Error tokenizing data")) as [Hnot Hagain].
    + reflexivity.
    + reflexivity.
    + by_computation.
    + intros q Hq Hb. apply list_elem_of_In in Hq. simpl in Hq.
      destruct Hq as [<- | [<- | [<- | []]]]; [discriminate Hb.. | reflexivity].
    + split; [exact Hnot|]. apply Hagain; [discriminate | reflexivity].
Defined.

(** ** Running the pipeline again *)

Section Rerun.

Implicit Types (w t : World) (p : string) (l : list string).

Lemma unchanged_refl t : unchanged t t.
Proof. by repeat split. Qed.

Lemma unchanged_trans t1 t2 t3 :
  unchanged t1 t2 -> unchanged t2 t3 -> unchanged t1 t3.
Proof. unfold unchanged. intuition congruence. Qed.

Lemma quiet_step output_dir p t :
  quiet (outcome p t) ->
  exists t', process_candidate output_dir p t = (Ok tt, t') /\ unchanged t t'.
Proof.
  rewrite process_candidate_eq. cbv zeta.
  destruct (outcome p t); intros []; eexists; (split; [reflexivity|]);
    by repeat split.
Qed.

Lemma raising_step output_dir p w e w' :
  process_candidate output_dir p w = (Raise e, w') ->
  unchanged w w'
  /\ forall t, files t = files w -> ledger t = ledger w ->
               exists t', process_candidate output_dir p t = (Raise e, t')
                          /\ unchanged t t'.
Proof.
  rewrite process_candidate_eq. cbv zeta.
  destruct (String.eqb output_dir "") eqn:Hdir;
    destruct (outcome p w) eqn:Ho; intros [= <- <-];
    (split; [by repeat split|]); intros t Hf Hl;
    rewrite process_candidate_eq; cbv zeta;
    rewrite (outcome_ext p w t), Ho, ?Hdir
      by (try done; unfold recorded_names; by rewrite Hl);
    eexists; (split; [reflexivity|]); by repeat split.
Qed.

(** A candidate that went through once is quiet in every later world with
    the same files and at least the names the ledger had right after it. *)
Lemma quiet_afterwards output_dir p w w' t :
  process_candidate output_dir p w = (Ok tt, w') ->
  files t = files w ->
  (forall n, n ∈ recorded_names w' -> n ∈ recorded_names t) ->
  quiet (outcome p t).
Proof.
  intros Hp Hf Hnames.
  pose proof (step_cases _ _ _ _ _ Hp) as (_ & _ & Hcases).
  assert (Hin : Os.basename p ∈ recorded_names t -> quiet (outcome p t)).
  { intros Hin. unfold outcome. by rewrite bool_decide_eq_true_2. }
  destruct Hcases as [(Hl & _ & _) | (a & s & d & dt & _ & _ & Hl & _)].
  - destruct (decide (Os.basename p ∈ recorded_names t)) as [|Hout]; [auto|].
    assert (Hw : Os.basename p ∉ recorded_names w).
    { intros Hn. apply Hout, Hnames. by rewrite (recorded_names_same _ _ Hl). }
    revert Hp. rewrite process_candidate_eq. cbv zeta. unfold outcome.
    rewrite !bool_decide_eq_false_2, Hf by done.
    destruct (files w !! p) as [f|]; [|done].
    destruct (size f =? 0)%N; [done|].
    destruct (negb (Py.endswith p ".csv")); [done|].
    destruct (parsed f) as [df|]; [|done].
    destruct (data_quality_check_module df); [|done].
    destruct (String.eqb output_dir ""); [done|].
    intros [= Hw']. exfalso. apply (f_equal ledger) in Hw'.
    rewrite <- Hw' in Hl. unfold recorded, set_ledger in Hl. cbn [ledger] in Hl.
    destruct (written_frame a output_dir (Os.splitext_root (Os.basename p))
                (add_log WARNING (processing_msg p) w)) as (_ & _ & Hlw).
    cbn [ledger tick] in Hl. rewrite Hlw in Hl. cbn [ledger add_log] in Hl.
    destruct (ledger w) as [old|]; simpl in Hl; [|done].
    injection Hl as Hl. apply (f_equal length) in Hl.
    rewrite length_app in Hl. simpl in Hl. lia.
  - apply Hin, Hnames. rewrite (recorded_names_snoc _ _ _ _ Hl).
    apply elem_of_app. right. by left.
Qed.

(** The loop keeps the files and never removes a name from the ledger. *)
Lemma run_frame output_dir l w :
  let w1 := (for_ l (process_candidate output_dir) w).2 in
  files w1 = files w /\ glob_result w1 = glob_result w
  /\ forall n, n ∈ recorded_names w -> n ∈ recorded_names w1.
Proof.
  apply (for_invariant
           (fun t => files t = files w /\ glob_result t = glob_result w
                     /\ forall n, n ∈ recorded_names w -> n ∈ recorded_names t));
    [|done].
  intros p t r t' _ (Hf & Hg & Hn) Hp.
  destruct (step_cases _ _ _ _ _ Hp) as (Hf' & Hg' & Hcases).
  split; [congruence|]. split; [congruence|]. intros n Hin.
  destruct Hcases as [(Hl & _) | (a & s & d & dt & _ & _ & Hl & _)].
  - rewrite (recorded_names_same _ _ Hl). auto.
  - rewrite (recorded_names_snoc _ _ _ _ Hl). apply elem_of_app. auto.
Qed.

(** Running the loop again on the world it left writes nothing. *)
Lemma rerun_unchanged output_dir l w t :
  let w1 := (for_ l (process_candidate output_dir) w).2 in
  files t = files w1 -> ledger t = ledger w1 ->
  unchanged t (for_ l (process_candidate output_dir) t).2.
Proof.
  revert w t. induction l as [|p l IH]; intros w t w1 Hf Hl.
  - apply unchanged_refl.
  - subst w1. rewrite for_cons in Hf, Hl. rewrite for_cons.
    destruct (process_candidate output_dir p w) as [[[]|e] w'] eqn:Hp.
    + destruct (run_frame output_dir l w') as (Hf1 & _ & Hn1).
      pose proof (step_cases _ _ _ _ _ Hp) as (Hfw & _ & _).
      destruct (quiet_step output_dir p t) as (t' & Hpt & Hun).
      { eapply quiet_afterwards; [exact Hp | congruence |].
        intros n Hn. unfold recorded_names at 1. rewrite Hl. by apply Hn1. }
      rewrite Hpt. eapply unchanged_trans; [exact Hun|].
      destruct Hun as (Hft & _ & Hlt & _).
      apply (IH w'); congruence.
    + simpl in Hf, Hl.
      destruct (raising_step _ _ _ _ _ Hp) as ((Hfw & _ & Hlw & _) & Hraise).
      destruct (Hraise t) as (t' & Hpt & Hun); [congruence.. |].
      by rewrite Hpt.
Qed.

End Rerun.

(** C7, refuted as stated: after a first run over a directory holding an
    empty file, the second run skips that file as empty, not as already
    processed (the first run never recorded it). *)
Lemma second_run_skips_empty_file_as_empty :
  let w1 := (main "in" "out" Sample.world).2 in
  "in/data_file_2.csv" ∈ candidates_of "in" w1
  /\ file_check_module "in/data_file_2.csv" w1
     = (Ok false,
        add_log WARNING "Skipping 'data_file_2.csv': File is empty." w1)
  /\ ~ skipped_as_already_processed "in/data_file_2.csv" w1.
Proof.
  intros w1.
  assert (H : file_check_module "in/data_file_2.csv" w1
              = (Ok false,
                 add_log WARNING "Skipping 'data_file_2.csv': File is empty." w1))
    by (vm_compute; reflexivity).
  split; [by_computation|]. split; [exact H|].
  unfold skipped_as_already_processed. rewrite H. intros Heq.
  apply (f_equal (fun x => log x.2)) in Heq. cbn [snd log add_log] in Heq.
  apply app_inv_head in Heq. discriminate Heq.
Qed.

(** C7, amended: a second run over the same directory, started from the
    world the first run left, writes no output file and no ledger entry
    and makes no directory; every file whose name the ledger holds after
    the first run is skipped as already processed. *)
Theorem second_run_changes_nothing input_dir output_dir w :
  let w1 := (main input_dir output_dir w).2 in
  let w2 := (main input_dir output_dir w1).2 in
  ledger w2 = ledger w1 /\ effects w2 = effects w1 /\ dirs w2 = dirs w1
  /\ (forall p t,
        Os.basename p ∈ recorded_names w1 -> ledger t = ledger w1 ->
        skipped_as_already_processed p t).
Proof.
  intros w1 w2.
  set (l := candidates_of input_dir w).
  set (wf := (for_ l (process_candidate output_dir) w).2).
  assert (H1 : files w1 = files wf /\ glob_result w1 = glob_result wf
               /\ ledger w1 = ledger wf).
  { subst w1 wf l. rewrite main_eq. by destruct (for_ _ _ w) as [[[]|e] w']. }
  destruct H1 as (Hf & Hg & Hl).
  destruct (run_frame output_dir l w) as (_ & Hgf & _). fold wf in Hgf.
  assert (Hl1 : candidates_of input_dir w1 = l).
  { unfold candidates_of. by rewrite Hg, Hgf. }
  pose proof (rerun_unchanged output_dir l w w1 Hf Hl) as Hun.
  assert (H2 : unchanged w1 w2).
  { subst w2. rewrite main_eq, Hl1.
    destruct (for_ l (process_candidate output_dir) w1) as [[[]|e] t2];
      exact Hun. }
  destruct H2 as (_ & _ & ? & ? & ?).
  split; [done|]. split; [done|]. split; [done|].
  intros p t Hin Ht. unfold skipped_as_already_processed.
  rewrite file_check_module_eq. cbv zeta.
  rewrite bool_decide_eq_true_2; [done|].
  unfold recorded_names. by rewrite Ht.
Qed.

Lemma second_run_changes_nothing_witness :
  let w1 := (main "in" "out" Sample.world).2 in
  let w2 := (main "in" "out" w1).2 in
  ledger w2 = ledger w1 /\ effects w2 = effects w1 /\ dirs w2 = dirs w1
  /\ skipped_as_already_processed "in/data_file_1.csv" w1.
Proof.
  intros w1 w2.
  destruct (second_run_changes_nothing "in" "out" Sample.world)
    as (Hl & He & Hd & Hskip).
  split; [exact Hl|]. split; [exact He|]. split; [exact Hd|].
  apply Hskip; [by_computation | reflexivity].
Defined.

(** ** A table without a required column *)

(** The engine raises [KeyError] for a missing required column, and
    [main] does not catch it: the loop stops at that file. *)
Lemma schema_error_stops_loop output_dir p rest w e :
  outcome p w = SchemaError e ->
  for_ (p :: rest) (process_candidate output_dir) w
  = (Raise e, add_log WARNING (processing_msg p) w).
Proof.
  intros Ho. rewrite for_cons, process_candidate_eq. cbv zeta. by rewrite Ho.
Qed.

Lemma missing_column_raises df c :
  first_missing df = Some c ->
  data_quality_check_module df = Raise (KeyError c).
Proof. intros H. pose proof (dq_outcome df) as Hd. by rewrite H in Hd. Qed.

(** C8, the code departs from the claim: with a first file whose table
    has no [phone] column and a good second file, [main] ends with the
    [KeyError] of the first file.  Nothing is written and nothing is
    recorded, the second file is never looked at, and the closing log line
    is not reached. *)
Theorem schema_error_aborts_the_batch :
  let '(result, w') := main "in" "out" Sample.schema_world in
  candidates_of "in" Sample.schema_world
  = ["in/data_file_1.csv"; "in/data_file_2.csv"]
  /\ outcome "in/data_file_2.csv" Sample.schema_world = Processed Sample.annotated
  /\ result = Raise (KeyError "phone")
  /\ effects w' = []
  /\ ledger w' = None
  /\ log w' = [(WARNING, newline +:+ "Processing 'data_file_1.csv'...")].
Proof. vm_compute. repeat split; reflexivity. Qed.

(** * Further properties *)

(** ** The two cell rules *)

Section CellRules.

Lemma str_filter_idem (p : ascii -> bool) (s : string) :
  Py.str_filter p (Py.str_filter p s) = Py.str_filter p s.
Proof.
  rewrite str_filter_filter. apply str_filter_ext. intros c. by destruct (p c).
Qed.

Lemma str_all_filter (p : ascii -> bool) (s : string) :
  Py.str_all p (Py.str_filter p s) = true.
Proof.
  induction s as [|a s IH]; [done|]. simpl.
  destruct (p a) eqn:Ha; [|done]. simpl. by rewrite Ha.
Qed.

Lemma str_filter_all (p : ascii -> bool) (s : string) :
  Py.str_all p s = true -> Py.str_filter p s = s.
Proof.
  induction s as [|a s IH]; [done|]. simpl.
  intros [Ha Hs]%andb_true_iff. by rewrite Ha, IH.
Qed.

Lemma str_filter_length (p : ascii -> bool) (s : string) :
  String.length (Py.str_filter p s) <= String.length s.
Proof.
  induction s as [|a s IH]; [done|]. simpl. destruct (p a); simpl; lia.
Qed.

Lemma normalize_phone_idem phone :
  normalize_phone (Str (normalize_phone phone)) = normalize_phone phone.
Proof.
  rewrite (normalize_phone_filter (Str _)), normalize_phone_filter.
  apply str_filter_idem.
Qed.

Lemma phone_is_valid_normalized phone :
  phone_is_valid (Str (normalize_phone phone)) = phone_is_valid phone.
Proof. unfold phone_is_valid. by rewrite normalize_phone_idem. Qed.

Lemma clean_and_validate_phone_idempotent_cell phone :
  clean_and_validate_phone (clean_and_validate_phone phone)
  = clean_and_validate_phone phone.
Proof.
  destruct (pd_isna phone) eqn:Hna.
  - assert (H : clean_and_validate_phone phone = Null)
      by (unfold clean_and_validate_phone; by rewrite Hna).
    by rewrite H.
  - rewrite (clean_phone_cases _ Hna).
    destruct (phone_is_valid phone) eqn:Hv; [|done].
    rewrite clean_phone_cases by done.
    by rewrite phone_is_valid_normalized, Hv, normalize_phone_idem.
Qed.

Lemma clean_descriptive_field_idem text :
  clean_descriptive_field (clean_descriptive_field text)
  = clean_descriptive_field text.
Proof.
  rewrite !clean_descriptive_field_keeps.
  destruct (pd_isna text); [done|]. cbn [pd_isna py_str].
  by rewrite str_filter_idem.
Qed.

End CellRules.

(** X1: the phone rule gives null, the sentinel "invalid", or a string of
    exactly ten [isdigit] characters that contains no "+" and no space; it
    gives null only for a null phone. *)
Theorem cleaned_phone_shape phone :
  (clean_and_validate_phone phone = Null /\ pd_isna phone = true)
  \/ (clean_and_validate_phone phone = Str "invalid" /\ pd_isna phone = false)
  \/ (exists n,
        clean_and_validate_phone phone = Str n /\ pd_isna phone = false
        /\ String.length n = 10
        /\ (forall c, In c (list_ascii_of_string n) ->
                      Py.char_isdigit c = true /\ c <> "+"%char /\ c <> " "%char)).
Proof.
  destruct (pd_isna phone) eqn:Hna.
  - left. unfold clean_and_validate_phone. by rewrite Hna.
  - right. rewrite (clean_phone_cases _ Hna).
    destruct (phone_is_valid phone) eqn:Hv; [right | by left].
    exists (normalize_phone phone). split; [done|]. split; [done|].
    apply phone_is_valid_iff in Hv as [Hlen Hdig]. split; [done|].
    intros c Hc. split; [by apply Hdig|].
    specialize (Hdig c Hc). split; intros ->; discriminate Hdig.
Qed.

Lemma cleaned_phone_shape_witness :
  exists n,
    clean_and_validate_phone (Str "+555 123 4567") = Str n
    /\ String.length n = 10
    /\ (forall c, In c (list_ascii_of_string n) ->
                  Py.char_isdigit c = true /\ c <> "+"%char /\ c <> " "%char).
Proof.
  destruct (cleaned_phone_shape (Str "+555 123 4567"))
    as [[H _] | [[H _] | (n & Hn & _ & Hlen & Hchars)]].
  - discriminate H.
  - discriminate H.
  - exists n. split; [exact Hn|]. split; [exact Hlen | exact Hchars].
Defined.

(** X2: cleaning a phone twice is the same as cleaning it once (a cleaned
    phone column is a fixed point of the rule), and the rule keeps a phone
    null exactly when it was null. *)
Theorem clean_and_validate_phone_idempotent phone :
  clean_and_validate_phone (clean_and_validate_phone phone)
  = clean_and_validate_phone phone
  /\ (pd_isna (clean_and_validate_phone phone) = pd_isna phone).
Proof.
  split; [apply clean_and_validate_phone_idempotent_cell|].
  destruct (pd_isna phone) eqn:Hna.
  - unfold clean_and_validate_phone. by rewrite Hna.
  - rewrite (clean_phone_cases _ Hna). by destruct (phone_is_valid phone).
Qed.

(** X3: the descriptive-field rule only deletes characters: what it
    returns for a non-null text is never longer than the text, consists of
    word characters, whitespace and commas only, and is the text itself
    when the text already consists of such characters; cleaning twice is
    cleaning once. *)
Theorem clean_descriptive_field_only_deletes text :
  clean_descriptive_field (clean_descriptive_field text)
  = clean_descriptive_field text
  /\ (pd_isna text = false ->
      exists s,
        clean_descriptive_field text = Str s
        /\ String.length s <= String.length (py_str text)
        /\ Py.str_all descriptive_char s = true
        /\ (Py.str_all descriptive_char (py_str text) = true -> s = py_str text)).
Proof.
  split; [apply clean_descriptive_field_idem|].
  rewrite !clean_descriptive_field_keeps. fold descriptive_char.
  intros ->. eexists. split; [reflexivity|].
  split; [apply str_filter_length|]. split; [apply str_all_filter|].
  apply str_filter_all.
Qed.

Lemma clean_descriptive_field_only_deletes_witness :
  exists s,
    clean_descriptive_field (Str "Hello, World!! #123") = Str s
    /\ String.length s <= String.length "Hello, World!! #123"
    /\ Py.str_all descriptive_char s = true
    /\ (Py.str_all descriptive_char "Hello, World!! #123" = true ->
        s = "Hello, World!! #123").
Proof.
  destruct (clean_descriptive_field_only_deletes (Str "Hello, World!! #123"))
    as [_ H].
  apply H. reflexivity.
Defined.

(** ** The engine as a whole *)

(** Evaluate comparisons between string literals. *)
Ltac eqb_literals :=
  repeat match goal with
         | |- context [String.eqb ?a ?b] =>
             let v := eval vm_compute in (String.eqb a b) in
             match v with
             | true => change (String.eqb a b) with true
             | false => change (String.eqb a b) with false
             end
         end;
  cbn [orb andb negb].

Section EngineColumns.

Implicit Types (df : DataFrame) (cols : list string) (c d : string).

Lemma add_column_present cols c :
  existsb (String.eqb c) cols = true -> Pd.add_column cols c = cols.
Proof. intros H. unfold Pd.add_column. by rewrite H. Qed.

Lemma filter_ne_absent cols c :
  existsb (String.eqb c) cols = false -> filter (fun d => d ≠ c) cols = cols.
Proof.
  induction cols as [|x cols IH]; [done|]. simpl.
  intros [Hx Hc]%orb_false_iff. rewrite filter_cons.
  apply String.eqb_neq in Hx. case_decide; [by rewrite IH | congruence].
Qed.

Lemma filter_ne_app_absent cols c :
  filter (fun d => d ≠ c) (cols ++ [c]) = filter (fun d => d ≠ c) cols.
Proof.
  rewrite filter_app, filter_cons. case_decide; [done|].
  by rewrite filter_nil, app_nil_r.
Qed.

Lemma filter_ne_add_column cols c d :
  c ≠ d ->
  filter (fun x => x ≠ d) (Pd.add_column cols c)
  = Pd.add_column (filter (fun x => x ≠ d) cols) c.
Proof.
  intros Hcd. unfold Pd.add_column. rewrite existsb_filter_ne.
  apply String.eqb_neq in Hcd. rewrite Hcd, andb_true_r.
  destruct (existsb (String.eqb c) cols); [done|].
  rewrite filter_app, filter_cons. apply String.eqb_neq in Hcd.
  case_decide; [by rewrite filter_nil | done].
Qed.

Lemma filter_ne_add_column_same cols c :
  filter (fun x => x ≠ c) (Pd.add_column cols c) = filter (fun x => x ≠ c) cols.
Proof.
  unfold Pd.add_column. destruct (existsb (String.eqb c) cols); [done|].
  apply filter_ne_app_absent.
Qed.

Lemma add_column_twice cols c :
  Pd.add_column (Pd.add_column cols c) c = Pd.add_column cols c.
Proof.
  apply add_column_present. rewrite existsb_add_column.
  by rewrite String.eqb_refl, orb_true_r.
Qed.

Lemma null_check_columns df field df' :
  null_check df field = Ok df' ->
  columns df' = Pd.add_column (columns df) "is_bad".
Proof.
  unfold null_check. intros H. bind_inv H. apply loc_iadd_Ok in H. by subst df'.
Qed.

Lemma getitem_has_column df c col :
  Pd.getitem df c = Ok col -> Pd.has_column df c = true.
Proof. unfold Pd.getitem. by destruct (Pd.has_column df c). Qed.

(** The columns the engine leaves, as a list. *)
Lemma dq_columns df df' :
  data_quality_check_module df = Ok df' ->
  columns df' = engine_columns (columns df).
Proof.
  unfold data_quality_check_module. intros H.
  apply bind_Ok in H as (phone & Hphone & H). apply getitem_has_column in Hphone.
  do 4 bind_inv H. simpl in H.
  apply bind_Ok in H as (d3 & Hloop & H).
  apply bind_Ok in Hloop as (d1 & H1 & Hloop). apply null_check_columns in H1.
  apply bind_Ok in Hloop as (d2 & H2 & Hloop). apply null_check_columns in H2.
  apply bind_Ok in Hloop as (d3' & H3 & Hloop). apply null_check_columns in H3.
  injection Hloop as ->.
  apply bind_Ok in H as (address & Haddress & H).
  apply getitem_has_column in Haddress.
  apply bind_Ok in H as (reviews & Hreviews & H).
  apply getitem_has_column in Hreviews.
  injection H as <-. cbn [columns Pd.setitem] in *.
  unfold Pd.has_column in *. cbn [columns Pd.setitem] in *.
  rewrite existsb_add_column in Hreviews.
  change (String.eqb "reviews_list" "address") with false in Hreviews.
  rewrite orb_false_r in Hreviews.
  rewrite (add_column_present _ "reviews_list") by
    (by rewrite existsb_add_column, Hreviews).
  rewrite (add_column_present _ "address") by done.
  rewrite H3, H2, H1, !add_column_twice. cbn [columns Pd.without_column Pd.setitem
    Pd.iadd_where Pd.loc_set Pd.setitem_scalar].
  clear H1 H2 H3. cbn [columns Pd.setitem_scalar] in Hphone.
  set (C := Pd.add_column (Pd.add_column (columns df) "is_bad") "issue_type") in *.
  assert (Hbad : existsb (String.eqb "is_bad") C = true).
  { subst C. rewrite !existsb_add_column. eqb_literals.
    by rewrite orb_true_r. }
  rewrite (add_column_present (Pd.add_column C "phone_cleaned") "is_bad")
    by (by rewrite existsb_add_column, Hbad).
  rewrite (add_column_present (Pd.add_column C "phone_cleaned") "phone")
    by (by rewrite existsb_add_column, Hphone).
  rewrite filter_ne_add_column_same. unfold engine_columns. fold C.
  apply add_column_present. rewrite existsb_filter_ne, Hbad. by eqb_literals.
Qed.

End EngineColumns.

Section EngineRows.

Implicit Types (r : Row) (k c : string).

Lemma lookup_flag b tag r k :
  k ≠ "is_bad" -> k ≠ "issue_type" -> flag b tag r !! k = r !! k.
Proof.
  intros. unfold flag. destruct b; [|done]. cbv zeta.
  by rewrite !lookup_insert_ne.
Qed.

Lemma annotate_row_lookup_other r k :
  k ∉ engine_written -> annotate_row r !! k = r !! k.
Proof.
  unfold engine_written. intros Hk.
  assert (k ≠ "is_bad" /\ k ≠ "issue_type" /\ k ≠ "phone"
          /\ k ≠ "phone_cleaned" /\ k ≠ "address" /\ k ≠ "reviews_list")
    as (? & ? & ? & ? & ? & ?).
  { repeat split; intros ->; apply Hk; apply list_elem_of_In; simpl; auto 10. }
  unfold annotate_row, clean_descriptive_row, null_check_row, phone_rule_row,
    init_row.
  cbv zeta.
  rewrite !lookup_insert_ne, !lookup_flag by done.
  rewrite lookup_delete_ne, lookup_insert_ne, lookup_flag by done.
  by rewrite !lookup_insert_ne.
Qed.

Lemma annotate_row_lookup_phone_cleaned r :
  annotate_row r !! "phone_cleaned" = None.
Proof.
  unfold annotate_row, clean_descriptive_row, null_check_row, phone_rule_row.
  cbv zeta.
  rewrite !lookup_insert_ne, !lookup_flag by done.
  by rewrite lookup_delete_eq.
Qed.

Lemma annotate_row_lookup_phone r :
  annotate_row r !! "phone"
  = Some (clean_and_validate_phone (Pd.cell r "phone")).
Proof.
  unfold annotate_row, clean_descriptive_row, null_check_row.
  rewrite !lookup_insert_ne, !lookup_flag by done.
  unfold phone_rule_row. cbv zeta.
  rewrite lookup_delete_ne, lookup_insert_eq by done.
  rewrite cell_flag, cell_insert_eq by done.
  by rewrite cell_init.
Qed.

Lemma annotate_row_lookup_descriptive r c :
  c = "address" \/ c = "reviews_list" ->
  annotate_row r !! c = Some (clean_descriptive_field (Pd.cell r c)).
Proof.
  unfold annotate_row, clean_descriptive_row. intros [-> | ->].
  - rewrite lookup_insert_ne, lookup_insert_eq by done.
    rewrite !cell_null_check, cell_phone_rule_other by discriminate.
    by rewrite cell_init.
  - rewrite lookup_insert_eq, cell_insert_ne by done.
    rewrite !cell_null_check, cell_phone_rule_other by discriminate.
    by rewrite cell_init.
Qed.

Lemma cell_annotate_row_other r c :
  c ∉ engine_written -> Pd.cell (annotate_row r) c = Pd.cell r c.
Proof. intros H. unfold Pd.cell. by rewrite annotate_row_lookup_other. Qed.

Lemma row_is_bad_annotated r : row_is_bad (annotate_row r) = row_is_bad r.
Proof.
  unfold row_is_bad. cbv zeta.
  rewrite annotate_row_phone, clean_and_validate_phone_idempotent_cell.
  by rewrite !cell_annotate_row_other by by_computation.
Qed.

Lemma issue_tags_annotated r : issue_tags (annotate_row r) = issue_tags r.
Proof.
  unfold issue_tags. cbv zeta.
  rewrite annotate_row_phone, clean_and_validate_phone_idempotent_cell.
  by rewrite !cell_annotate_row_other by by_computation.
Qed.

(** Annotating an annotated row changes nothing. *)
Lemma annotate_row_idem r : annotate_row (annotate_row r) = annotate_row r.
Proof.
  apply map_eq. intros k.
  destruct (decide (k ∈ engine_written)) as [Hk | Hk];
    [|by rewrite annotate_row_lookup_other].
  apply list_elem_of_In in Hk. simpl in Hk.
  destruct (annotate_row_flagged r) as [Hb Hs].
  destruct (annotate_row_flagged (annotate_row r)) as [Hb' Hs'].
  rewrite row_is_bad_annotated in Hb'. rewrite issue_tags_annotated in Hs'.
  destruct Hk as [<- | [<- | [<- | [<- | [<- | [<- | []]]]]]].
  - congruence.
  - congruence.
  - rewrite !annotate_row_lookup_phone, annotate_row_phone.
    by rewrite clean_and_validate_phone_idempotent_cell.
  - by rewrite !annotate_row_lookup_phone_cleaned.
  - rewrite !annotate_row_lookup_descriptive by auto.
    rewrite annotate_row_descriptive by auto.
    by rewrite clean_descriptive_field_idem.
  - rewrite !annotate_row_lookup_descriptive by auto.
    rewrite annotate_row_descriptive by auto.
    by rewrite clean_descriptive_field_idem.
Qed.

End EngineRows.

Section EngineFacts.

Implicit Types (df : DataFrame) (r : Row) (c : string).

Lemma find_first {A} (p : A -> bool) (l : list A) (x : A) :
  List.find p l = Some x ->
  exists before after,
    l = before ++ x :: after /\ p x = true
    /\ forall y, y ∈ before -> p y = false.
Proof.
  induction l as [|a l IH]; [done|]. simpl.
  destruct (p a) eqn:Ha.
  - intros [= ->]. exists [], l. split; [done|]. split; [done|].
    intros y Hy. by apply elem_of_nil in Hy.
  - intros (before & after & -> & Hx & Hb)%IH.
    exists (a :: before), after. split; [done|]. split; [done|].
    intros y [-> | Hy]%elem_of_cons; auto.
Qed.

Lemma find_none {A} (p : A -> bool) (l : list A) :
  List.find p l = None -> forall y, y ∈ l -> p y = false.
Proof.
  induction l as [|a l IH]; simpl.
  - intros _ y Hy. by apply elem_of_nil in Hy.
  - destruct (p a) eqn:Ha; [done|].
    intros Hl y [-> | Hy]%elem_of_cons; auto.
Qed.

Lemma cleaned_is_sentinel phone :
  cell_eqb (clean_and_validate_phone phone) (Str "invalid")
  = negb (pd_isna phone) && negb (phone_is_valid phone).
Proof.
  destruct (pd_isna phone) eqn:Hna.
  - unfold clean_and_validate_phone. by rewrite Hna.
  - rewrite (clean_phone_cases _ Hna).
    destruct (phone_is_valid phone) eqn:Hv; [|done].
    cbn [cell_eqb negb andb]. by apply valid_phone_not_sentinel.
Qed.

Lemma cleaned_is_null phone :
  pd_isna (clean_and_validate_phone phone) = pd_isna phone.
Proof.
  destruct (pd_isna phone) eqn:Hna.
  - unfold clean_and_validate_phone. by rewrite Hna.
  - rewrite (clean_phone_cases _ Hna). by destruct (phone_is_valid phone).
Qed.

Lemma has_column_annotated df annotated c :
  data_quality_check_module df = Ok annotated ->
  Pd.has_column annotated c
  = (Pd.has_column df c || String.eqb c "is_bad" || String.eqb c "issue_type")
    && negb (String.eqb c "phone_cleaned").
Proof.
  intros Hc%dq_columns. unfold Pd.has_column. rewrite Hc. unfold engine_columns.
  by rewrite existsb_filter_ne, !existsb_add_column.
Qed.

Lemma engine_columns_idem cols :
  engine_columns (engine_columns cols) = engine_columns cols.
Proof.
  assert (Hin : forall c,
             existsb (String.eqb c) (engine_columns cols)
             = (existsb (String.eqb c) cols || String.eqb c "is_bad"
                || String.eqb c "issue_type")
               && negb (String.eqb c "phone_cleaned")).
  { intros c. unfold engine_columns.
    by rewrite existsb_filter_ne, !existsb_add_column. }
  unfold engine_columns at 1.
  rewrite (add_column_present (engine_columns cols) "is_bad")
    by (rewrite Hin; eqb_literals; by rewrite orb_true_r).
  rewrite (add_column_present (engine_columns cols) "issue_type")
    by (rewrite Hin; eqb_literals; by rewrite orb_true_r).
  apply filter_ne_absent. rewrite Hin. eqb_literals. by rewrite andb_false_r.
Qed.

Lemma engine_columns_present df annotated :
  data_quality_check_module df = Ok annotated ->
  (forall c, c ∈ required_columns -> Pd.has_column annotated c = true)
  /\ engine_columns (columns annotated) = columns annotated.
Proof.
  intros Hdq. split.
  - intros c Hc. rewrite (has_column_annotated _ _ _ Hdq).
    pose proof (dq_outcome df) as Hd. unfold first_missing in Hd.
    destruct (List.find _ required_columns) as [d|] eqn:Hfind; [congruence|].
    pose proof (find_none _ _ Hfind c Hc) as Hp. apply negb_false_iff in Hp.
    rewrite Hp. apply list_elem_of_In in Hc. simpl in Hc.
    destruct Hc as [<- | [<- | [<- | [<- | [<- | []]]]]]; by eqb_literals.
  - rewrite (dq_columns _ _ Hdq). apply engine_columns_idem.
Qed.

End EngineFacts.

(** X4: the engine succeeds exactly on tables that have the five columns
    phone, name, location, address and reviews_list.  On any other table
    it raises [KeyError] for a missing one of them, namely the first that
    is missing in this order, and nothing else. *)
Theorem engine_needs_its_columns df :
  ((exists annotated, data_quality_check_module df = Ok annotated)
   <-> forall c, c ∈ required_columns -> Pd.has_column df c = true)
  /\ (forall e,
        data_quality_check_module df = Raise e ->
        exists c before after,
          e = KeyError c
          /\ required_columns = before ++ c :: after
          /\ Pd.has_column df c = false
          /\ forall d, d ∈ before -> Pd.has_column df d = true).
Proof.
  pose proof (dq_outcome df) as Hd. unfold first_missing in Hd.
  destruct (List.find _ required_columns) as [c|] eqn:Hfind.
  - apply find_first in Hfind as (before & after & Hreq & Hc & Hb).
    apply negb_true_iff in Hc. split.
    + split.
      * intros [a Ha]. congruence.
      * intros Hall. rewrite Hall in Hc; [done|].
        rewrite Hreq. apply elem_of_app. right. by left.
    + intros e He. exists c, before, after.
      split; [congruence|]. split; [done|]. split; [done|].
      intros d Hin. specialize (Hb d Hin). by apply negb_false_iff in Hb.
  - destruct Hd as (a & Ha & _). split.
    + split; [|by exists a].
      intros _ c Hc. apply (find_none _ _ Hfind) in Hc.
      by apply negb_false_iff in Hc.
    + intros e He. congruence.
Qed.

Lemma engine_needs_its_columns_witness :
  (exists annotated, data_quality_check_module Sample.table = Ok annotated)
  /\ exists c before after,
       KeyError "phone" = KeyError c
       /\ required_columns = before ++ c :: after
       /\ Pd.has_column Sample.no_phone_table c = false
       /\ forall d, d ∈ before -> Pd.has_column Sample.no_phone_table d = true.
Proof.
  split.
  - destruct (engine_needs_its_columns Sample.table) as [[_ H] _].
    apply H. intros c Hc. apply list_elem_of_In in Hc. simpl in Hc.
    destruct Hc as [<- | [<- | [<- | [<- | [<- | []]]]]]; reflexivity.
  - destruct (engine_needs_its_columns Sample.no_phone_table) as [_ H].
    apply H. vm_compute. reflexivity.
Defined.

(** X5: the columns of the annotated table are those of the input in
    their order, without [phone_cleaned], followed by [is_bad] and
    [issue_type] where the input did not have them.  So the result always
    has [is_bad] and [issue_type], never has [phone_cleaned] (an input
    column of that name is lost), and has any other column exactly when the
    input has it. *)
Theorem engine_result_columns df annotated :
  data_quality_check_module df = Ok annotated ->
  columns annotated = engine_columns (columns df)
  /\ Pd.has_column annotated "is_bad" = true
  /\ Pd.has_column annotated "issue_type" = true
  /\ Pd.has_column annotated "phone_cleaned" = false
  /\ (forall c, c <> "is_bad" -> c <> "issue_type" -> c <> "phone_cleaned" ->
                Pd.has_column annotated c = Pd.has_column df c)
  /\ (Pd.has_column df "is_bad" = false ->
      Pd.has_column df "issue_type" = false ->
      Pd.has_column df "phone_cleaned" = false ->
      columns annotated = columns df ++ ["is_bad"; "issue_type"]).
Proof.
  intros Hdq. pose proof (dq_columns _ _ Hdq) as Hc.
  split; [done|].
  assert (Hhas : forall c,
             Pd.has_column annotated c
             = (Pd.has_column df c || String.eqb c "is_bad"
                || String.eqb c "issue_type")
               && negb (String.eqb c "phone_cleaned")).
  { intros c. unfold Pd.has_column. rewrite Hc. unfold engine_columns.
    by rewrite existsb_filter_ne, !existsb_add_column. }
  split; [rewrite Hhas; eqb_literals; by rewrite orb_true_r|].
  split; [rewrite Hhas; eqb_literals; by rewrite orb_true_r|].
  split; [rewrite Hhas; eqb_literals; by rewrite andb_false_r|].
  split.
  - intros c H1 H2 H3. rewrite Hhas.
    apply String.eqb_neq in H1, H2, H3. rewrite H1, H2, H3.
    by rewrite !orb_false_r, andb_true_r.
  - intros H1 H2 H3. rewrite Hc. unfold engine_columns, Pd.has_column in *.
    unfold Pd.add_column at 2. rewrite H1.
    unfold Pd.add_column. rewrite existsb_app, H2. cbn [existsb].
    eqb_literals. rewrite <- app_assoc. cbn [app].
    apply filter_ne_absent. rewrite !existsb_app, H3. cbn [existsb].
    by eqb_literals.
Qed.

Lemma engine_result_columns_witness :
  columns Sample.annotated = engine_columns (columns Sample.table)
  /\ columns Sample.annotated = columns Sample.table ++ ["is_bad"; "issue_type"].
Proof.
  destruct (engine_result_columns Sample.table Sample.annotated)
    as (H1 & _ & _ & _ & _ & H2); [vm_compute; reflexivity|].
  split; [exact H1|]. apply H2; reflexivity.
Defined.

(** X6: the engine neither adds, drops nor reorders rows, and in a row it
    touches only the columns it is about: every cell of a column other
    than is_bad, issue_type, phone, phone_cleaned, address and reviews_list
    (so also name and location) is passed through as it was, and no row
    keeps a [phone_cleaned] entry. *)
Theorem engine_keeps_rows_and_other_cells df annotated :
  data_quality_check_module df = Ok annotated ->
  length (rows annotated) = length (rows df)
  /\ forall i r,
       rows df !! i = Some r ->
       exists r',
         rows annotated !! i = Some r'
         /\ (forall c, c ∉ engine_written -> r' !! c = r !! c)
         /\ r' !! "phone_cleaned" = None
         /\ r' !! "name" = r !! "name"
         /\ r' !! "location" = r !! "location".
Proof.
  intros Hdq. split.
  - rewrite (dq_rows _ _ Hdq). apply length_map.
  - intros i r Hr. exists (annotate_row r).
    split; [by eapply rows_lookup|].
    split; [intros c; apply annotate_row_lookup_other|].
    split; [apply annotate_row_lookup_phone_cleaned|].
    split; apply annotate_row_lookup_other; by_computation.
Qed.

Lemma engine_keeps_rows_and_other_cells_witness :
  length (rows Sample.annotated) = length (rows Sample.table)
  /\ exists r',
       rows Sample.annotated !! 1 = Some r'
       /\ (forall c, c ∉ engine_written -> r' !! c = Sample.null_name_row !! c)
       /\ r' !! "phone_cleaned" = None
       /\ r' !! "name" = Sample.null_name_row !! "name"
       /\ r' !! "location" = Sample.null_name_row !! "location".
Proof.
  destruct (engine_keeps_rows_and_other_cells Sample.table Sample.annotated)
    as [Hlen Hrows]; [vm_compute; reflexivity|].
  split; [exact Hlen|]. apply Hrows. reflexivity.
Defined.

(** X7: what the engine makes of a row depends on that row alone: two
    tables that hold the same row, at whatever positions and among
    whatever other rows, get the same annotated row there. *)
Theorem engine_rows_are_independent df1 df2 annotated1 annotated2 i j r :
  data_quality_check_module df1 = Ok annotated1 ->
  data_quality_check_module df2 = Ok annotated2 ->
  rows df1 !! i = Some r -> rows df2 !! j = Some r ->
  rows annotated1 !! i = rows annotated2 !! j
  /\ is_Some (rows annotated1 !! i).
Proof.
  intros H1 H2 Hi Hj.
  rewrite (rows_lookup _ _ _ _ H1 Hi), (rows_lookup _ _ _ _ H2 Hj). eauto.
Qed.

Lemma engine_rows_are_independent_witness :
  rows Sample.annotated !! 3
  = rows {| columns := Sample.header ++ ["is_bad"; "issue_type"];
            rows := [annotate_row Sample.null_phone_row] |} !! 0
  /\ is_Some (rows Sample.annotated !! 3).
Proof.
  apply (engine_rows_are_independent Sample.table
           {| columns := Sample.header; rows := [Sample.null_phone_row] |}
           _ _ 3 0 Sample.null_phone_row).
  - vm_compute. reflexivity.
  - vm_compute. reflexivity.
  - reflexivity.
  - reflexivity.
Defined.

(** X8: a row is clean exactly when its name and location are not null
    and its phone is not null and valid; and its issue_type is the
    concatenation, in this order, of "invalid_phone;" (phone not null and
    not valid), "null_name;", "null_phone;" and "null_location;" (the
    field is null), each present only when its condition holds. *)
Theorem row_verdict_from_inputs df annotated i r :
  data_quality_check_module df = Ok annotated ->
  rows df !! i = Some r ->
  let name := Pd.cell r "name" in
  let phone := Pd.cell r "phone" in
  let location := Pd.cell r "location" in
  exists r' b,
    rows annotated !! i = Some r'
    /\ r' !! "is_bad" = Some (Bool b)
    /\ (b = false <->
        pd_isna name = false /\ pd_isna location = false
        /\ pd_isna phone = false /\ phone_is_valid phone = true)
    /\ r' !! "issue_type"
       = Some (Str (tag_if (negb (pd_isna phone) && negb (phone_is_valid phone))
                      "invalid_phone;"
                    +:+ tag_if (pd_isna name) "null_name;"
                    +:+ tag_if (pd_isna phone) "null_phone;"
                    +:+ tag_if (pd_isna location) "null_location;")).
Proof.
  intros Hdq Hr name phone location.
  exists (annotate_row r), (row_is_bad r).
  destruct (annotate_row_flagged r) as [Hb Hs].
  split; [by eapply rows_lookup|]. split; [done|].
  unfold row_is_bad, issue_tags in *. cbv zeta in *.
  fold name phone location in Hs |- *.
  rewrite cleaned_is_sentinel, cleaned_is_null in Hs |- *.
  split; [|done].
  destruct (pd_isna name), (pd_isna location), (pd_isna phone),
    (phone_is_valid phone); cbn; intuition congruence.
Qed.

Lemma row_verdict_from_inputs_witness :
  exists r' b,
    rows Sample.annotated !! 0 = Some r'
    /\ r' !! "is_bad" = Some (Bool b)
    /\ (b = false <->
        pd_isna (Str "Cafe Uno") = false /\ pd_isna (Str "Downtown") = false
        /\ pd_isna (Str "555 123 4567") = false
        /\ phone_is_valid (Str "555 123 4567") = true)
    /\ r' !! "issue_type"
       = Some (Str (tag_if (negb (pd_isna (Str "555 123 4567"))
                            && negb (phone_is_valid (Str "555 123 4567")))
                      "invalid_phone;"
                    +:+ tag_if (pd_isna (Str "Cafe Uno")) "null_name;"
                    +:+ tag_if (pd_isna (Str "555 123 4567")) "null_phone;"
                    +:+ tag_if (pd_isna (Str "Downtown")) "null_location;")).
Proof.
  apply (row_verdict_from_inputs Sample.table Sample.annotated 0 Sample.valid_row).
  - vm_compute. reflexivity.
  - reflexivity.
Defined.

(** X9: the engine is idempotent: run on its own result it succeeds and
    returns that result unchanged, columns and rows. *)
Theorem engine_idempotent df annotated :
  data_quality_check_module df = Ok annotated ->
  data_quality_check_module annotated = Ok annotated.
Proof.
  intros Hdq.
  destruct (engine_columns_present df annotated Hdq) as [Hreq Hcols].
  pose proof (dq_outcome annotated) as Hd. unfold first_missing in Hd.
  destruct (List.find _ required_columns) as [c|] eqn:Hfind.
  { apply find_first in Hfind as (before & after & Hl & Hc & _).
    rewrite Hreq in Hc; [done|]. rewrite Hl. apply elem_of_app. right. by left. }
  destruct Hd as (again & Hagain & _). rewrite Hagain. f_equal.
  pose proof (dq_rows _ _ Hagain) as Hr. pose proof (dq_columns _ _ Hagain) as Hc.
  rewrite (dq_rows _ _ Hdq), map_map in Hr.
  rewrite (map_ext _ _ annotate_row_idem) in Hr. rewrite <- (dq_rows _ _ Hdq) in Hr.
  rewrite Hcols in Hc. destruct again, annotated. simpl in *. congruence.
Qed.

Lemma engine_idempotent_witness :
  data_quality_check_module Sample.annotated = Ok Sample.annotated.
Proof.
  apply (engine_idempotent Sample.table). vm_compute. reflexivity.
Defined.

(** ** The ledger and the admission gate *)



(** X11: the gate changes nothing but the log.  It admits a path exactly
    when the base name is not in the ledger, the file exists with a
    non-zero size and the path ends in ".csv", and then it logs nothing;
    when it refuses it logs exactly one warning; and the only exception it
    lets out is the [OSError] of [os.path.getsize] on a missing file whose
    name is not in the ledger. *)
Theorem gate_verdict p w :
  let r := (file_check_module p w).1 in
  let w' := (file_check_module p w).2 in
  unchanged w w'
  /\ (r = Ok true <->
      (Os.basename p ∉ recorded_names w)
      /\ exists f, files w !! p = Some f /\ size f <> 0%N
                   /\ exists stem, p = stem +:+ ".csv")
  /\ (r = Ok true -> w' = w)
  /\ (r = Ok false -> exists msg, log w' = log w ++ [(WARNING, msg)])
  /\ (forall e, r = Raise e ->
                e = OSError p /\ w' = w /\ files w !! p = None
                /\ Os.basename p ∉ recorded_names w).
Proof.
  intros r w'. subst r w'. rewrite file_check_module_eq. cbv zeta.
  case_bool_decide as Hin.
  { cbn [fst snd]. split; [by repeat split|]. split; [|split; [done|]].
    - split; [done | by intros [? _]].
    - split; [by eexists | done]. }
  destruct (files w !! p) as [f|] eqn:Hf.
  2:{ cbn [fst snd]. split; [by repeat split|]. split; [|split; [done|]].
      - split; [done | by intros (_ & ? & ? & _)].
      - split; [done|]. by intros e [= <-]. }
  destruct (size f =? 0)%N eqn:Hsize.
  { apply N.eqb_eq in Hsize. cbn [fst snd]. split; [by repeat split|].
    split; [|split; [done|]].
    - split; [done|]. intros (_ & f' & [= <-] & ? & _). done.
    - split; [by eexists | done]. }
  apply N.eqb_neq in Hsize.
  destruct (Py.endswith p ".csv") eqn:Hext; cbn [negb fst snd].
  - apply endswith_iff in Hext. split; [by repeat split|].
    split; [|split; [done|]]; [|split; [done | done]].
    split; [|done]. intros _. split; [done|]. by exists f.
  - split; [by repeat split|]. split; [|split; [done|]].
    + split; [done|]. intros (_ & f' & _ & _ & Hstem).
      apply endswith_iff in Hstem. congruence.
    + split; [by eexists | done].
Qed.

Lemma gate_verdict_witness :
  (file_check_module "in/data_file_3.csv" Sample.world).1 = Ok true
  /\ (file_check_module "in/data_file_3.csv" Sample.world).2 = Sample.world.
Proof.
  destruct (gate_verdict "in/data_file_3.csv" Sample.world)
    as (_ & [_ Hadmit] & Hsame & _).
  assert (H : (file_check_module "in/data_file_3.csv" Sample.world).1 = Ok true).
  { apply Hadmit. split; [by_computation|].
    exists {| size := 57; parsed := Raise (CsvError "Error tokenizing data") |}.
    split; [reflexivity|]. split; [discriminate|].
    by exists "in/data_file_3". }
  split; [exact H | exact (Hsame H)].
Defined.

(** ** Writing the output files *)

Section Partition.

Implicit Types (df : DataFrame) (r : Row).







End Partition.





(** ** The orchestrator *)

Section MainFacts.

Implicit Types (w t : World) (p : string) (l : list string).







End MainFacts.

(** X14: a run of [main] never changes the input files and only appends
    to the ledger: the records that were there stay, in order, and every
    record it adds carries the base name of a candidate that was
    non-empty, ended in ".csv", was read and had the required columns.
    When it adds nothing it leaves the ledger file as it was (absent, if
    it was absent). *)
Theorem main_only_appends_to_ledger input_dir output_dir w :
  let w' := (main input_dir output_dir w).2 in
  files w' = files w
  /\ exists new,
       default [] (ledger w') = default [] (ledger w) ++ new
       /\ (new = [] -> ledger w' = ledger w)
       /\ forall rec,
            rec ∈ new ->
            exists p f df annotated,
              p ∈ candidates_of input_dir w
              /\ file_name rec = Os.basename p
              /\ files w !! p = Some f /\ size f <> 0%N
              /\ Py.endswith p ".csv" = true
              /\ parsed f = Ok df
              /\ data_quality_check_module df = Ok annotated.
Proof.
  apply (main_invariant
           (fun t =>
              files t = files w
              /\ exists new,
                   default [] (ledger t) = default [] (ledger w) ++ new
                   /\ (new = [] -> ledger t = ledger w)
                   /\ forall rec,
                        rec ∈ new ->
                        exists p f df annotated,
                          p ∈ candidates_of input_dir w
                          /\ file_name rec = Os.basename p
                          /\ files w !! p = Some f /\ size f <> 0%N
                          /\ Py.endswith p ".csv" = true
                          /\ parsed f = Ok df
                          /\ data_quality_check_module df = Ok annotated)).
  - intros p t r t' Hp (Hf & new & Hnew & Hsame & Hall) Hstep.
    destruct (step_cases _ _ _ _ _ Hstep) as (Hf' & _ & [(Hl & _) | Hproc]).
    + split; [congruence|]. exists new. rewrite Hl. by repeat split.
    + destruct Hproc as (a & stamp & date & dt & Ho & _ & Hl & _).
      split; [congruence|].
      exists (new ++ [ {| file_name := Os.basename p; processed_date := date |} ]).
      rewrite Hl. cbn [default]. rewrite Hnew, <- app_assoc.
      split; [done|]. split; [by intros []%app_eq_nil|].
      intros rec [Hin | ->%list_elem_of_singleton]%elem_of_app; [auto|].
      apply outcome_Processed in Ho as (_ & f & df & Hfp & Hsize & Hext & Hpar & Hdq).
      exists p, f, df, a. rewrite <- Hf. apply N.eqb_neq in Hsize.
      by repeat split.
  - intros t msg H. exact H.
  - split; [done|]. exists []. rewrite app_nil_r. repeat split.
    intros rec Hrec. by apply elem_of_nil in Hrec.
Qed.

Lemma main_only_appends_to_ledger_witness :
  let w' := (main "in" "out" Sample.recorded_world).2 in
  files w' = files Sample.recorded_world
  /\ exists new,
       default [] (ledger w')
       = default [] (ledger Sample.recorded_world) ++ new
       /\ (new = [] -> ledger w' = ledger Sample.recorded_world).
Proof.
  intros w'.
  destruct (main_only_appends_to_ledger "in" "out" Sample.recorded_world)
    as (Hf & new & Hnew & Hsame & _).
  split; [exact Hf|]. exists new. split; [exact Hnew | exact Hsame].
Defined.





(** ** Names of the output files *)

Section Paths.

Implicit Types (s t : string) (c a : ascii).

Lemma append_cons a s t : String a s +:+ t = String a (s +:+ t).
Proof. done. Qed.

Lemma append_assoc s t u : (s +:+ t) +:+ u = s +:+ (t +:+ u).
Proof.
  induction s as [|a s IH]; [done|]. rewrite !append_cons. by rewrite IH.
Qed.










End Paths.



(** ** Edge cases of a run *)



(** X19: a candidate that passes the gate and that [pd.read_csv] rejects
    costs two warnings and nothing else: the loop body returns normally,
    logs the processing line and then the error line with the text of the
    exception, and writes no file, no directory and no ledger entry. *)
Theorem read_failure_is_only_logged output_dir p w f e :
  Os.basename p ∉ recorded_names w ->
  files w !! p = Some f -> size f <> 0%N -> Py.endswith p ".csv" = true ->
  parsed f = Raise e ->
  let w' := (process_candidate output_dir p w).2 in
  (process_candidate output_dir p w).1 = Ok tt
  /\ unchanged w w'
  /\ log w'
     = log w
       ++ [(WARNING, newline +:+ "Processing '" +:+ Os.basename p +:+ "'...");
           (WARNING,
            "Error reading file '" +:+ Os.basename p +:+ "': " +:+ exn_text e
            +:+ ". Skipping.")].
Proof.
  intros Hnew Hf Hsize Hext Hpar w'. subst w'.
  rewrite process_candidate_eq. cbv zeta. unfold outcome.
  rewrite bool_decide_eq_false_2, Hf by done.
  apply N.eqb_neq in Hsize. rewrite Hsize, Hext, Hpar. cbn [negb fst snd].
  split; [done|]. split; [by repeat split|].
  cbn [log add_log]. unfold processing_msg. by rewrite <- app_assoc.
Qed.

Lemma read_failure_is_only_logged_witness :
  let w' := (process_candidate "out" "in/data_file_3.csv" Sample.world).2 in
  (process_candidate "out" "in/data_file_3.csv" Sample.world).1 = Ok tt
  /\ unchanged Sample.world w'
  /\ log w'
     = log Sample.world
       ++ [(WARNING,
            newline +:+ "Processing '" +:+ Os.basename "in/data_file_3.csv"
            +:+ "'...");
           (WARNING,
            "Error reading file '" +:+ Os.basename "in/data_file_3.csv" +:+ "': "
            +:+ exn_text (CsvError "Error tokenizing data") +:+ ". Skipping.")].
Proof.
  apply (read_failure_is_only_logged "out" "in/data_file_3.csv" Sample.world
           {| size := 57; parsed := Raise (CsvError "Error tokenizing data") |}).
  - by_computation.
  - reflexivity.
  - discriminate.
  - reflexivity.
  - reflexivity.
Defined.


